(** * activity_backend: repositories, services and middlewares

    A shallow embedding of the CRUD slices of the backend (ProjectStatus,
    ActivityManager, ServiceCompany, Timesheet, Customer) and the properties
    of their pagination, search, deletion policy, validation and error
    handling. *)

From Stdlib Require Import ZArith Ascii String List Lia.
From stdpp Require Import base option list strings gmap.

Open Scope string_scope.

(** ** JavaScript values

    Request bodies and stored documents are flat objects: a finite map from
    field names to scalar values.  A field that is missing from the map reads
    as [undefined]. *)

Inductive jsval :=
| JUndefined
| JNull
| JBool (b : bool)
| JNum (z : Z)
| JStr (s : string).

#[global] Instance jsval_eq_dec : EqDecision jsval.
Proof. solve_decision. Defined.

(** [!v] is [negb (truthy v)]: undefined, null, false, 0 and the empty string
    are the falsy values. *)
Definition truthy (v : jsval) : bool :=
  match v with
  | JUndefined | JNull => false
  | JBool b => b
  | JNum z => negb (z =? 0)%Z
  | JStr s => negb (String.eqb s "")
  end.

(** Reading a property of an object: [obj.k]. *)
Definition prop (o : gmap string jsval) (k : string) : jsval :=
  default JUndefined (o !! k).

(** ** Regular expressions of the store

    A list query with a search term carries [{ $regex: search, $options: "i" }]:
    the term is handed to the store as a regular expression, unescaped.  The
    fragment whose meaning is fixed here is the one made of ordinary
    characters (printable ASCII, no metacharacter) and of the dot; every
    other pattern is left to [pcre_compile] (see [Collaborators]).  Text is
    taken as a sequence of 8-bit characters, and case folding is that of the
    ASCII letters. *)

Inductive atom :=
| Lit (c : ascii)   (* an ordinary character *)
| AnyChar.          (* the dot *)

Definition metachars : list ascii :=
  list_ascii_of_string "\^$.|?*+()[]{}".

Definition is_plain (c : ascii) : bool :=
  (32 <=? nat_of_ascii c)%nat && (nat_of_ascii c <? 127)%nat &&
  negb (existsb (Ascii.eqb c) metachars).

Fixpoint parse_fragment (pat : string) : option (list atom) :=
  match pat with
  | EmptyString => Some []
  | String c rest =>
      if Ascii.eqb c "." then cons AnyChar <$> parse_fragment rest
      else if is_plain c then cons (Lit c) <$> parse_fragment rest
      else None
  end.

(** ASCII case folding, as the caseless option does it. *)
Definition to_lower (c : ascii) : ascii :=
  let n := nat_of_ascii c in
  if (65 <=? n)%nat && (n <=? 90)%nat then ascii_of_nat (n + 32) else c.

Definition line_feed : ascii := ascii_of_nat 10.

Definition atom_matches (caseless : bool) (a : atom) (c : ascii) : bool :=
  match a with
  | Lit x => if caseless then Ascii.eqb (to_lower x) (to_lower c) else Ascii.eqb x c
  | AnyChar => negb (Ascii.eqb c line_feed)
  end.

(** The atoms match a prefix of the subject. *)
Fixpoint match_here (caseless : bool) (atoms : list atom) (subj : string) : bool :=
  match atoms, subj with
  | [], _ => true
  | a :: rest, String c s => atom_matches caseless a c && match_here caseless rest s
  | _ :: _, EmptyString => false
  end.

(** An unanchored pattern matches when it matches at some position. *)
Fixpoint search_from (caseless : bool) (atoms : list atom) (subj : string) : bool :=
  match_here caseless atoms subj ||
  match subj with
  | EmptyString => false
  | String _ s => search_from caseless atoms s
  end.

(** [$options] is a string of flags; ["i"] asks for caseless matching. *)
Definition has_option_i (opts : string) : bool :=
  existsb (Ascii.eqb "i") (list_ascii_of_string opts).

(** The outcome of a fragment pattern on a subject; [None] outside the
    fragment. *)
Definition fragment_test (caseless : bool) (pat subj : string) : option bool :=
  (fun atoms => search_from caseless atoms subj) <$> parse_fragment pat.

(** ** Errors, requests and the world

    A thrown value is either an [Error] built by the repository itself or an
    error raised by a collaborator (the storage layer, the runtime). *)

Inductive JsError :=
| Error (message : string)          (* new Error(message) *)
| TypeError (message : string)      (* raised by the runtime *)
| DriverError (detail : string).    (* raised by the storage layer *)

Inductive result (A : Type) :=
| Ok (a : A)
| Throw (e : JsError).
Arguments Ok {A} a.
Arguments Throw {A} e.

(** The part of an Express request the handlers read.  [req_id] is
    [req.params.id], bound by the router on the [/:id] routes; [req_body] is
    [None] when the body is undefined. *)
Record Request := {
  req_id : string;
  req_query : gmap string string;
  req_body : option (gmap string jsval);
}.

Record IPagination := { page : Z; limit : Z }.

(** One collection per Mongoose model. *)
Inductive Model :=
| ProjectStatusModel
| ActivityManagerModel
| ServiceCompanyModel
| TimesheetModel
| CustomerModel.

(** Documents are kept in the order the store enumerates them; a document
    holds its [_id] and its schema fields.  Timestamps, which the storage layer
    maintains by itself, are not part of the modelled document. *)
Record Database := {
  projectStatuses : list (gmap string jsval);
  activityManagers : list (gmap string jsval);
  serviceCompanies : list (gmap string jsval);
  timesheets : list (gmap string jsval);
  customers : list (gmap string jsval);
}.

Definition collection (m : Model) (d : Database) : list (gmap string jsval) :=
  match m with
  | ProjectStatusModel => projectStatuses d
  | ActivityManagerModel => activityManagers d
  | ServiceCompanyModel => serviceCompanies d
  | TimesheetModel => timesheets d
  | CustomerModel => customers d
  end.

Definition set_collection (m : Model) (c : list (gmap string jsval)) (d : Database)
  : Database :=
  match m with
  | ProjectStatusModel =>
      {| projectStatuses := c; activityManagers := activityManagers d;
         serviceCompanies := serviceCompanies d; timesheets := timesheets d;
         customers := customers d |}
  | ActivityManagerModel =>
      {| projectStatuses := projectStatuses d; activityManagers := c;
         serviceCompanies := serviceCompanies d; timesheets := timesheets d;
         customers := customers d |}
  | ServiceCompanyModel =>
      {| projectStatuses := projectStatuses d; activityManagers := activityManagers d;
         serviceCompanies := c; timesheets := timesheets d;
         customers := customers d |}
  | TimesheetModel =>
      {| projectStatuses := projectStatuses d; activityManagers := activityManagers d;
         serviceCompanies := serviceCompanies d; timesheets := c;
         customers := customers d |}
  | CustomerModel =>
      {| projectStatuses := projectStatuses d; activityManagers := activityManagers d;
         serviceCompanies := serviceCompanies d; timesheets := timesheets d;
         customers := c |}
  end.

Record LogEntry := {
  log_error : JsError;
  log_req : Request;
  log_label : string;
}.

(** The world a request runs in: the database, the storage failures still to
    come (the head decides the next storage call: [Some e] makes it fail with
    [e]), and the error log. *)
Record World := {
  db : Database;
  faults : list (option JsError);
  errorLog : list LogEntry;
}.

(** ** The handler monad: state and exceptions *)

Definition M (A : Type) : Type := World -> result A * World.

Definition ret {A} (a : A) : M A := fun w => (Ok a, w).
Definition throw {A} (e : JsError) : M A := fun w => (Throw e, w).

Definition bind {A B} (m : M A) (k : A -> M B) : M B := fun w =>
  match m w with
  | (Ok a, w') => k a w'
  | (Throw e, w') => (Throw e, w')
  end.

(** [try { body } catch (error) { handler }] *)
Definition try_catch {A} (body : M A) (handler : JsError -> M A) : M A := fun w =>
  match body w with
  | (Ok a, w') => (Ok a, w')
  | (Throw e, w') => handler e w'
  end.

Declare Scope handler_scope.
Delimit Scope handler_scope with handler.
Notation "'let!' x ':=' m 'in' k" := (bind m (fun x => k))
  (at level 10, x name, m at level 100, k at level 200) : handler_scope.
Notation "m ';;' k" := (bind m (fun _ => k))
  (at level 100, k at level 200, right associativity) : handler_scope.
Notation "x |> f" := (f x) (at level 45, left associativity, only parsing).
Open Scope handler_scope.

(** Modelled from the spec: [utils/errorLogger.logError] is not part of the
    sources at hand.  The spec has repositories and services log the failure
    under a structured label; the call is recorded in [errorLog] and
    returns. *)
Definition logError (error : JsError) (req : Request) (label : string) : M unit :=
  fun w =>
    (Ok tt,
     {| db := db w; faults := faults w;
        errorLog := errorLog w ++ [{| log_error := error; log_req := req;
                                      log_label := label |}] |}).

(** ** Collaborators

    What the handlers use without defining it. *)
Class Collaborators := {
  (** the store's regular-expression compiler on the patterns outside the
      modelled fragment: pattern, options; [None] for a pattern it rejects *)
  pcre_compile : string -> string -> option (string -> bool);
  (** [populate(path, select)]: the document with the reference under [path]
      replaced by the referenced document *)
  populated : string -> option string -> gmap string jsval -> gmap string jsval;
  (** [Model.create]: casting, defaults, validation and the fresh [_id] of a
      new document, given the collection it is inserted in *)
  new_document : Model -> list (gmap string jsval) -> gmap string jsval ->
                 result (gmap string jsval);
  (** [utils/paginationHandler] and [utils/searchHandler] *)
  paginationHandler : Request -> IPagination;
  searchHandler : Request -> string;
}.

(** ** The object-document mapper

    Filters are flat: each field carries an equality test or a regular
    expression. *)

Inductive condition :=
| Equals (v : jsval)                       (* { field: v } *)
| Regex (pattern : string) (options : string).  (* { field: { $regex, $options } } *)

(** The predicate of a regular expression, or [None] when the store rejects
    the pattern. *)
Definition regex_compile `{Collaborators} (pattern options : string)
  : option (string -> bool) :=
  match parse_fragment pattern with
  | Some atoms => Some (search_from (has_option_i options) atoms)
  | None => pcre_compile pattern options
  end.

Definition condition_compile `{Collaborators} (c : condition)
  : option (jsval -> bool) :=
  match c with
  | Equals v => Some (fun x => bool_decide (x = v))
  | Regex pattern options =>
      (fun test x => match x with JStr s => test s | _ => false end)
        <$> regex_compile pattern options
  end.

(** A document passes a filter when each of its conditions holds of the
    field it names. *)
Fixpoint filter_compile `{Collaborators} (conds : list (string * condition))
  : option (gmap string jsval -> bool) :=
  match conds with
  | [] => Some (fun _ => true)
  | (field, c) :: rest =>
      match condition_compile c, filter_compile rest with
      | Some test, Some others => Some (fun d => test (prop d field) && others d)
      | _, _ => None
      end
  end.

Definition query_compile `{Collaborators} (query : gmap string condition)
  : result (gmap string jsval -> bool) :=
  match filter_compile (map_to_list query) with
  | Some p => Ok p
  | None => Throw (DriverError "regular expression is invalid")
  end.

(** A storage call: it fails when the next scheduled fault says so, and
    otherwise runs on the model's collection; [None] as the new collection
    leaves it as it is. *)
Definition storage {A} (m : Model)
    (op : list (gmap string jsval) -> result A * option (list (gmap string jsval)))
  : M A := fun w =>
  match faults w with
  | Some e :: rest =>
      (Throw e, {| db := db w; faults := rest; errorLog := errorLog w |})
  | fs =>
      let (r, c') := op (collection m (db w)) in
      (r, {| db := match c' with
                   | Some c => set_collection m c (db w)
                   | None => db w
                   end;
             faults := tail fs; errorLog := errorLog w |})
  end.

(** [Model.find(query)] and the calls chained on it before it is awaited. *)
Record FindQuery := {
  fq_model : Model;
  fq_filter : gmap string condition;
  fq_limit : option Z;
  fq_skip : option Z;
  fq_populate : list (string * option string);
}.

Definition find (m : Model) (query : gmap string condition) : FindQuery :=
  {| fq_model := m; fq_filter := query; fq_limit := None; fq_skip := None;
     fq_populate := [] |}.

(** [.limit(n)] and [.skip(n)] *)
Module Query.
Definition limit (n : Z) (q : FindQuery) : FindQuery :=
  {| fq_model := fq_model q; fq_filter := fq_filter q; fq_limit := Some n;
     fq_skip := fq_skip q; fq_populate := fq_populate q |}.

Definition skip (n : Z) (q : FindQuery) : FindQuery :=
  {| fq_model := fq_model q; fq_filter := fq_filter q; fq_limit := fq_limit q;
     fq_skip := Some n; fq_populate := fq_populate q |}.
End Query.

Definition populate_all `{Collaborators} (paths : list (string * option string))
    (d : gmap string jsval) : gmap string jsval :=
  fold_left (fun acc p => populated (fst p) (snd p) acc) paths d.

(** [.populate(path, select)] and [.lean()] chain on every query.
    [.lean()] and [doc.toObject()] turn a document into a plain object with
    the same fields. *)
Class Chainable (Q : Type) := {
  populate : string -> option string -> Q -> Q;
  lean : Q -> Q;
}.

#[global] Instance FindQuery_chainable : Chainable FindQuery := {
  populate path select q :=
    {| fq_model := fq_model q; fq_filter := fq_filter q; fq_limit := fq_limit q;
       fq_skip := fq_skip q; fq_populate := fq_populate q ++ [(path, select)] |};
  lean q := q;
}.

#[global] Instance OneQuery_chainable `{Collaborators}
  : Chainable (M (option (gmap string jsval))) := {
  populate path select q := let! d := q in ret (populated path select <$> d);
  lean q := q;
}.

Definition toObject (d : gmap string jsval) : gmap string jsval := d.

(** The cursor skips first and limits next, whatever the order of the calls;
    a limit of 0 is no limit, a negative limit is its absolute value, a
    negative skip is refused by the store. *)
Definition apply_skip (s : option Z) (l : list (gmap string jsval))
  : result (list (gmap string jsval)) :=
  match s with
  | None => Ok l
  | Some n => if (n <? 0)%Z then Throw (DriverError "skip value must be non-negative")
              else Ok (drop (Z.to_nat n) l)
  end.

Definition apply_limit (n : option Z) (l : list (gmap string jsval))
  : list (gmap string jsval) :=
  match n with
  | None => l
  | Some n => if (n =? 0)%Z then l else take (Z.abs_nat n) l
  end.

Definition exec `{Collaborators} (q : FindQuery) : M (list (gmap string jsval)) :=
  storage (fq_model q) (fun c =>
    match query_compile (fq_filter q) with
    | Throw e => (Throw e, None)
    | Ok p =>
        match apply_skip (fq_skip q) (List.filter p c) with
        | Throw e => (Throw e, None)
        | Ok l => (Ok (map (populate_all (fq_populate q)) (apply_limit (fq_limit q) l)), None)
        end
    end).

Definition countDocuments `{Collaborators} (m : Model) (query : gmap string condition)
  : M Z :=
  storage m (fun c =>
    match query_compile query with
    | Throw e => (Throw e, None)
    | Ok p => (Ok (Z.of_nat (length (List.filter p c))), None)
    end).

(** Queries for one document work on the first document that passes the
    filter. *)
Definition findOne `{Collaborators} (m : Model) (query : gmap string condition)
  : M (option (gmap string jsval)) :=
  storage m (fun c =>
    match query_compile query with
    | Throw e => (Throw e, None)
    | Ok p => (Ok (List.find p c), None)
    end).

Definition findById `{Collaborators} (m : Model) (id : string)
  : M (option (gmap string jsval)) :=
  findOne m {[ "_id" := Equals (JStr id) ]}.

(** An update document without operators sets each of its paths; the store
    refuses to change [_id]. *)
Definition apply_update (update d : gmap string jsval) : result (gmap string jsval) :=
  match update !! "_id" with
  | Some v =>
      if bool_decide (d !! "_id" = Some v) then Ok (update ∪ d)
      else Throw (DriverError "_id is immutable")
  | None => Ok (update ∪ d)
  end.

Fixpoint replace_first (p : gmap string jsval -> bool) (d' : gmap string jsval)
    (c : list (gmap string jsval)) : list (gmap string jsval) :=
  match c with
  | [] => []
  | d :: rest => if p d then d' :: rest else d :: replace_first p d' rest
  end.

Fixpoint remove_first (p : gmap string jsval -> bool) (c : list (gmap string jsval))
  : list (gmap string jsval) :=
  match c with
  | [] => []
  | d :: rest => if p d then rest else d :: remove_first p rest
  end.

(** [findOneAndUpdate(filter, update, { new })]: the updated document when
    [new] is set, the document as it was otherwise; [null] when no document
    passes the filter. *)
Definition findOneAndUpdate `{Collaborators} (m : Model)
    (query : gmap string condition) (update : gmap string jsval) (new : bool)
  : M (option (gmap string jsval)) :=
  storage m (fun c =>
    match query_compile query with
    | Throw e => (Throw e, None)
    | Ok p =>
        match List.find p c with
        | None => (Ok None, None)
        | Some d =>
            match apply_update update d with
            | Throw e => (Throw e, None)
            | Ok d' => (Ok (Some (if new then d' else d)), Some (replace_first p d' c))
            end
        end
    end).

Definition findByIdAndUpdate `{Collaborators} (m : Model) (id : string)
    (update : gmap string jsval) (new : bool) : M (option (gmap string jsval)) :=
  findOneAndUpdate m {[ "_id" := Equals (JStr id) ]} update new.

Definition findByIdAndDelete `{Collaborators} (m : Model) (id : string)
  : M (option (gmap string jsval)) :=
  storage m (fun c =>
    match query_compile {[ "_id" := Equals (JStr id) ]} with
    | Throw e => (Throw e, None)
    | Ok p =>
        match List.find p c with
        | None => (Ok None, None)
        | Some d => (Ok (Some d), Some (remove_first p c))
        end
    end).

Definition create `{Collaborators} (m : Model) (data : gmap string jsval)
  : M (gmap string jsval) :=
  storage m (fun c =>
    match new_document m c data with
    | Throw e => (Throw e, None)
    | Ok d => (Ok d, Some (c ++ [d])%list)
    end).

(** [Math.ceil(n / d)] on integers; a zero divisor gives a number that is not
    finite. *)
Inductive jsnumber :=
| Num (z : Z)
| PosInfinity
| NegInfinity
| NotANumber.

Definition Math_ceil_div (n d : Z) : jsnumber :=
  if (d =? 0)%Z then
    (if (n =? 0)%Z then NotANumber
     else if (0 <? n)%Z then PosInfinity else NegInfinity)
  else Num (- ((- n) / d))%Z.

(** What a list operation returns. *)
Record ListResult := {
  data : list (gmap string jsval);
  totalCount : Z;
  currentPage : Z;
  totalPages : jsnumber;
}.

(** ** Repositories

    Each method is the source method, statement by statement: the awaited
    storage calls inside [try], and a [catch] that logs under the method's
    label and throws the error again. *)

Module ProjectStatusRepository.
Definition getProjectStatuses `{Collaborators} (req : Request) (pagination : IPagination)
    (search : string) : M ListResult :=
  try_catch
    (let query : gmap string condition := ∅ in
     let query :=
       if truthy (JStr search) then <["name" := Regex search "i"]> query
       else query in
     let! projectStatuses :=
       find ProjectStatusModel query |> Query.limit (limit pagination)
         |> Query.skip ((page pagination - 1) * limit pagination)
         |> lean |> exec in
     let! totalCount := countDocuments ProjectStatusModel query in
     let totalPages := Math_ceil_div totalCount (limit pagination) in
     ret {| data := projectStatuses; totalCount := totalCount;
            currentPage := page pagination; totalPages := totalPages |})
    (fun error => logError error req "ProjectStatusRepository-getProjectStatuses";; throw error).

Definition getProjectStatusById `{Collaborators} (req : Request) (id : string)
  : M (gmap string jsval) :=
  try_catch
    (let! projectStatus := findById ProjectStatusModel id |> lean in
     match projectStatus with
     | None => throw (Error "Project Status not found")
     | Some projectStatus => ret projectStatus
     end)
    (fun error => logError error req "ProjectStatusRepository-getProjectStatusById";; throw error).

Definition createProjectStatus `{Collaborators} (req : Request) (projectStatusData : gmap string jsval)
  : M (gmap string jsval) :=
  try_catch
    (let! newProjectStatus := create ProjectStatusModel projectStatusData in
     ret (toObject newProjectStatus))
    (fun error => logError error req "ProjectStatusRepository-createProjectStatus";; throw error).

Definition updateProjectStatus `{Collaborators} (req : Request) (id : string)
    (projectStatusData : gmap string jsval) : M (gmap string jsval) :=
  try_catch
    (let! updatedProjectStatus := findByIdAndUpdate ProjectStatusModel id projectStatusData true in
     match updatedProjectStatus with
     | None => throw (Error "Failed to update project status")
     | Some updatedProjectStatus => ret (toObject updatedProjectStatus)
     end)
    (fun error => logError error req "ProjectStatusRepository-updateProjectStatus";; throw error).

Definition deleteProjectStatus `{Collaborators} (req : Request) (id : string)
  : M (gmap string jsval) :=
  try_catch
    (let! deletedProjectStatus := findByIdAndDelete ProjectStatusModel id in
     match deletedProjectStatus with
     | None => throw (Error "Failed to delete project status")
     | Some deletedProjectStatus => ret (toObject deletedProjectStatus)
     end)
    (fun error => logError error req "ProjectStatusRepository-deleteProjectStatus";; throw error).
End ProjectStatusRepository.

Module ActivityManagerRepository.
Definition getActivityManagers `{Collaborators} (req : Request)
    (pagination : IPagination) (search : string) : M ListResult :=
  try_catch
    (let query : gmap string condition := {[ "isDeleted" := Equals (JBool false) ]} in
     let query :=
       if truthy (JStr search) then <["name" := Regex search "i"]> query
       else query in
     let! totalCount := countDocuments ActivityManagerModel query in
     let totalPages := Math_ceil_div totalCount (limit pagination) in
     let currentPage := page pagination in
     let! managers :=
       find ActivityManagerModel query |> populate "admin" (Some "name")
         |> Query.skip ((page pagination - 1) * limit pagination)
         |> Query.limit (limit pagination)
         |> exec in
     ret {| data := managers; totalCount := totalCount;
            currentPage := currentPage; totalPages := totalPages |})
    (fun error => logError error req "ManagerRepository-getManagers";; throw error).

Definition getManagerById `{Collaborators} (req : Request) (id : string)
  : M (gmap string jsval) :=
  try_catch
    (let! managerDoc :=
       findOne ActivityManagerModel
         {[ "_id" := Equals (JStr id); "isDeleted" := Equals (JBool false) ]}
         |> populate "admin" (Some "name") in
     match managerDoc with
     | None => throw (Error "Manager not found")
     | Some managerDoc => ret managerDoc
     end)
    (fun error => logError error req "ManagerRepository-getManagerById";; throw error).

Definition createManager `{Collaborators} (req : Request)
    (managerData : gmap string jsval) : M (gmap string jsval) :=
  try_catch
    (let! newManager := create ActivityManagerModel managerData in
     ret newManager)
    (fun error => logError error req "ManagerRepository-createManager";; throw error).

Definition updateManager `{Collaborators} (req : Request) (id : string)
    (managerData : gmap string jsval) : M (gmap string jsval) :=
  try_catch
    (let! updatedManager :=
       findOneAndUpdate ActivityManagerModel
         {[ "_id" := Equals (JStr id); "isDeleted" := Equals (JBool false) ]}
         managerData true
         |> populate "admin" (Some "name") in
     match updatedManager with
     | None => throw (Error "Failed to update manager")
     | Some updatedManager => ret updatedManager
     end)
    (fun error => logError error req "ManagerRepository-updateManager";; throw error).

Definition deleteManager `{Collaborators} (req : Request) (id : string)
  : M (gmap string jsval) :=
  try_catch
    (let! deletedManager :=
       findOneAndUpdate ActivityManagerModel
         {[ "_id" := Equals (JStr id); "isDeleted" := Equals (JBool false) ]}
         {[ "isDeleted" := JBool true ]} true
         |> populate "admin" (Some "name") in
     match deletedManager with
     | None => throw (Error "Failed to delete manager")
     | Some deletedManager => ret deletedManager
     end)
    (fun error => logError error req "ManagerRepository-deleteManager";; throw error).
End ActivityManagerRepository.

Module ServiceCompanyRepository.
Definition getServiceCompanies `{Collaborators} (req : Request) (pagination : IPagination)
    (search : string) : M ListResult :=
  try_catch
    (let query : gmap string condition := ∅ in
     let query :=
       if truthy (JStr search) then <["name" := Regex search "i"]> query
       else query in
     let! serviceCompaniesDoc :=
       find ServiceCompanyModel query |> Query.limit (limit pagination)
         |> Query.skip ((page pagination - 1) * limit pagination)
         |> exec in
     let serviceCompanies := map toObject serviceCompaniesDoc in
     let! totalCount := countDocuments ServiceCompanyModel query in
     let totalPages := Math_ceil_div totalCount (limit pagination) in
     ret {| data := serviceCompanies; totalCount := totalCount;
            currentPage := page pagination; totalPages := totalPages |})
    (fun error => logError error req "ServiceCompanyRepository-getServiceCompanies";; throw error).

Definition getServiceCompanyById `{Collaborators} (req : Request) (id : string)
  : M (gmap string jsval) :=
  try_catch
    (let! serviceCompanyDoc := findById ServiceCompanyModel id in
     match serviceCompanyDoc with
     | None => throw (Error "ServiceCompany not found")
     | Some serviceCompanyDoc => ret (toObject serviceCompanyDoc)
     end)
    (fun error => logError error req "ServiceCompanyRepository-getServiceCompanyById";; throw error).

Definition createServiceCompany `{Collaborators} (req : Request) (serviceCompanyData : gmap string jsval)
  : M (gmap string jsval) :=
  try_catch
    (let! newServiceCompany := create ServiceCompanyModel serviceCompanyData in
     ret (toObject newServiceCompany))
    (fun error => logError error req "ServiceCompanyRepository-createServiceCompany";; throw error).

Definition updateServiceCompany `{Collaborators} (req : Request) (id : string)
    (serviceCompanyData : gmap string jsval) : M (gmap string jsval) :=
  try_catch
    (let! updatedServiceCompany := findByIdAndUpdate ServiceCompanyModel id serviceCompanyData true in
     match updatedServiceCompany with
     | None => throw (Error "Failed to update ServiceCompany")
     | Some updatedServiceCompany => ret (toObject updatedServiceCompany)
     end)
    (fun error => logError error req "ServiceCompanyRepository-updateServiceCompany";; throw error).

Definition deleteServiceCompany `{Collaborators} (req : Request) (id : string)
  : M (gmap string jsval) :=
  try_catch
    (let! deletedServiceCompany := findByIdAndDelete ServiceCompanyModel id in
     match deletedServiceCompany with
     | None => throw (Error "Failed to delete ServiceCompany")
     | Some deletedServiceCompany => ret (toObject deletedServiceCompany)
     end)
    (fun error => logError error req "ServiceCompanyRepository-deleteServiceCompany";; throw error).
End ServiceCompanyRepository.

Module TimesheetRepository.
Definition getTimesheets `{Collaborators} (req : Request) (pagination : IPagination)
    (search : string) : M ListResult :=
  try_catch
    (let query : gmap string condition := ∅ in
     let query :=
       if truthy (JStr search) then <["file" := Regex search "i"]> query
       else query in
     let! timesheets :=
       find TimesheetModel query |> populate "activity" None
         |> populate "worker" None |> populate "manager" None
         |> lean |> exec in
     let! totalCount := countDocuments TimesheetModel query in
     let totalPages := Math_ceil_div totalCount (limit pagination) in
     ret {| data := timesheets; totalCount := totalCount;
            currentPage := page pagination; totalPages := totalPages |})
    (fun error => logError error req "TimesheetRepository-getTimesheets";; throw error).

Definition getTimesheetById `{Collaborators} (req : Request) (id : string)
  : M (gmap string jsval) :=
  try_catch
    (let! timesheet :=
       findById TimesheetModel id |> populate "activity" None
         |> populate "worker" None |> populate "manager" None |> lean in
     match timesheet with
     | None => throw (Error "Timesheet not found")
     | Some timesheet => ret timesheet
     end)
    (fun error => logError error req "TimesheetRepository-getTimesheetById";; throw error).

Definition createTimesheet `{Collaborators} (req : Request)
    (timesheetData : gmap string jsval) : M (gmap string jsval) :=
  try_catch
    (let! newTimesheet := create TimesheetModel timesheetData in
     ret (toObject newTimesheet))
    (fun error => logError error req "TimesheetRepository-createTimesheet";; throw error).

Definition updateTimesheet `{Collaborators} (req : Request) (id : string)
    (timesheetData : gmap string jsval) : M (gmap string jsval) :=
  try_catch
    (let! updatedTimesheet :=
       findByIdAndUpdate TimesheetModel id timesheetData true
         |> populate "activity" None |> populate "worker" None
         |> populate "manager" None |> lean in
     match updatedTimesheet with
     | None => throw (Error "Failed to update timesheet")
     | Some updatedTimesheet => ret updatedTimesheet
     end)
    (fun error => logError error req "TimesheetRepository-updateTimesheet";; throw error).

Definition deleteTimesheet `{Collaborators} (req : Request) (id : string)
  : M (gmap string jsval) :=
  try_catch
    (let! deletedTimesheet :=
       findByIdAndDelete TimesheetModel id |> populate "activity" None
         |> populate "worker" None |> populate "manager" None |> lean in
     match deletedTimesheet with
     | None => throw (Error "Failed to delete timesheet")
     | Some deletedTimesheet => ret deletedTimesheet
     end)
    (fun error => logError error req "TimesheetRepository-deleteTimesheet";; throw error).
End TimesheetRepository.

Module CustomerRepository.
Definition getCustomers `{Collaborators} (req : Request) (pagination : IPagination)
    (search : string) : M ListResult :=
  try_catch
    (let query : gmap string condition := {[ "isDeleted" := Equals (JBool false) ]} in
     let query :=
       if truthy (JStr search) then <["name" := Regex search "i"]> query
       else query in
     let! customersDoc :=
       find CustomerModel query |> Query.limit (limit pagination)
         |> Query.skip ((page pagination - 1) * limit pagination)
         |> exec in
     let customers := map toObject customersDoc in
     let! totalCount := countDocuments CustomerModel query in
     let totalPages := Math_ceil_div totalCount (limit pagination) in
     ret {| data := customers; totalCount := totalCount;
            currentPage := page pagination; totalPages := totalPages |})
    (fun error => logError error req "CustomerRepository-getCustomers";; throw error).

Definition getCustomerById `{Collaborators} (req : Request) (id : string)
  : M (gmap string jsval) :=
  try_catch
    (let! customerDoc :=
       findOne CustomerModel
         {[ "_id" := Equals (JStr id); "isDeleted" := Equals (JBool false) ]} in
     match customerDoc with
     | None => throw (Error "Customer not found")
     | Some customerDoc =>
         let customer := toObject customerDoc in
         ret customer
     end)
    (fun error => logError error req "CustomerRepository-getCustomerById";; throw error).

Definition createCustomer `{Collaborators} (req : Request) (customerData : gmap string jsval)
  : M (gmap string jsval) :=
  try_catch
    (let! newCustomer := create CustomerModel customerData in
     ret (toObject newCustomer))
    (fun error => logError error req "CustomerRepository-createCustomer";; throw error).

Definition updateCustomer `{Collaborators} (req : Request) (id : string)
    (customerData : gmap string jsval) : M (gmap string jsval) :=
  try_catch
    (let! updatedCustomer :=
       findOneAndUpdate CustomerModel
         {[ "_id" := Equals (JStr id); "isDeleted" := Equals (JBool false) ]}
         customerData true in
     match updatedCustomer with
     | None => throw (Error "Failed to update customer")
     | Some updatedCustomer => ret (toObject updatedCustomer)
     end)
    (fun error => logError error req "CustomerRepository-updateCustomer";; throw error).

Definition deleteCustomer `{Collaborators} (req : Request) (id : string)
  : M (gmap string jsval) :=
  try_catch
    (let! deletedCustomer :=
       findOneAndUpdate CustomerModel
         {[ "_id" := Equals (JStr id); "isDeleted" := Equals (JBool false) ]}
         {[ "isDeleted" := JBool true ]} true in
     match deletedCustomer with
     | None => throw (Error "Failed to delete customer")
     | Some deletedCustomer => ret (toObject deletedCustomer)
     end)
    (fun error => logError error req "CustomerRepository-deleteCustomer";; throw error).
End CustomerRepository.

(** ** Responses

    A handler answers through [res.sendFormatted], [res.sendArrayFormatted] or
    [res.sendError]; the response is the call with its arguments, the status
    being [None] when the call leaves it out. *)

Inductive ErrorArg :=
| Caught (e : JsError)   (* the error of a catch clause *)
| Text (s : string).     (* a string literal *)

Inductive Response :=
| SendFormatted (payload : gmap string jsval) (message : string) (status : option Z)
| SendArrayFormatted (payload : ListResult) (message : string) (status : option Z)
| SendError (error : ErrorArg) (message : string) (status : option Z).

(** Modelled from the spec: the response helpers are not part of the sources
    at hand.  The spec has a success envelope carry the status the service
    gives, 200 by default; for an error envelope it fixes no default, so the
    status is known only when the call gives one. *)
Definition http_status (r : Response) : option Z :=
  match r with
  | SendFormatted _ _ status | SendArrayFormatted _ _ status =>
      Some (default 200%Z status)
  | SendError _ _ status => status
  end.

Definition is_success (r : Response) : bool :=
  match r with
  | SendFormatted _ _ _ | SendArrayFormatted _ _ _ => true
  | SendError _ _ _ => false
  end.

(** ** Services *)

Module ServiceCompanyService.
Definition getServiceCompanies `{Collaborators} (req : Request) : M Response :=
  try_catch
    (let pagination := paginationHandler req in
     let search := searchHandler req in
     let! serviceCompanies := ServiceCompanyRepository.getServiceCompanies req pagination search in
     ret (SendArrayFormatted serviceCompanies "ServiceCompanies retrieved successfully" None))
    (fun error =>
       logError error req "ServiceCompanyService-getServiceCompanies";;
       ret (SendError (Caught error) "ServiceCompanies retrieval failed" None)).

Definition getServiceCompany `{Collaborators} (req : Request) : M Response :=
  try_catch
    (let id := req_id req in
     let! serviceCompany := ServiceCompanyRepository.getServiceCompanyById req id in
     ret (SendFormatted serviceCompany "ServiceCompany retrieved successfully" None))
    (fun error =>
       logError error req "ServiceCompanyService-getServiceCompany";;
       ret (SendError (Caught error) "ServiceCompany retrieval failed" None)).

(** [req.body] is handed to the repository as it is; an undefined body is an
    object without fields to the mapper. *)
Definition createServiceCompany `{Collaborators} (req : Request) : M Response :=
  try_catch
    (let serviceCompanyData := default ∅ (req_body req) in
     let! newServiceCompany := ServiceCompanyRepository.createServiceCompany req serviceCompanyData in
     ret (SendFormatted newServiceCompany "ServiceCompany created successfully" (Some 201%Z)))
    (fun error =>
       logError error req "ServiceCompanyService-createServiceCompany";;
       ret (SendError (Caught error) "ServiceCompany creation failed" None)).

Definition updateServiceCompany `{Collaborators} (req : Request) : M Response :=
  try_catch
    (let id := req_id req in
     let serviceCompanyData := default ∅ (req_body req) in
     let! updatedServiceCompany := ServiceCompanyRepository.updateServiceCompany req id serviceCompanyData in
     ret (SendFormatted updatedServiceCompany "ServiceCompany updated successfully" None))
    (fun error =>
       logError error req "ServiceCompanyService-updateServiceCompany";;
       ret (SendError (Caught error) "ServiceCompany update failed" None)).

Definition deleteServiceCompany `{Collaborators} (req : Request) : M Response :=
  try_catch
    (let id := req_id req in
     let! deletedServiceCompany := ServiceCompanyRepository.deleteServiceCompany req id in
     ret (SendFormatted deletedServiceCompany "ServiceCompany deleted successfully" None))
    (fun error =>
       logError error req "ServiceCompanyService-deleteServiceCompany";;
       ret (SendError (Caught error) "ServiceCompany deletion failed" None)).
End ServiceCompanyService.

Module TimesheetService.
Definition getTimesheets `{Collaborators} (req : Request) : M Response :=
  try_catch
    (let pagination := paginationHandler req in
     let search := searchHandler req in
     let! timesheets := TimesheetRepository.getTimesheets req pagination search in
     ret (SendArrayFormatted timesheets "Timesheets retrieved successfully" None))
    (fun error =>
       logError error req "TimesheetService-getTimesheets";;
       ret (SendError (Caught error) "Timesheets retrieval failed" None)).

Definition getTimesheet `{Collaborators} (req : Request) : M Response :=
  try_catch
    (let id := req_id req in
     let! timesheet := TimesheetRepository.getTimesheetById req id in
     ret (SendFormatted timesheet "Timesheet retrieved successfully" None))
    (fun error =>
       logError error req "TimesheetService-getTimesheet";;
       ret (SendError (Caught error) "Timesheet retrieval failed" None)).

(** [req.body] is handed to the repository as it is; an undefined body is an
    object without fields to the mapper. *)
Definition createTimesheet `{Collaborators} (req : Request) : M Response :=
  try_catch
    (let timesheetData := default ∅ (req_body req) in
     let! newTimesheet := TimesheetRepository.createTimesheet req timesheetData in
     ret (SendFormatted newTimesheet "Timesheet created successfully" (Some 201%Z)))
    (fun error =>
       logError error req "TimesheetService-createTimesheet";;
       ret (SendError (Caught error) "Timesheet creation failed" None)).

Definition updateTimesheet `{Collaborators} (req : Request) : M Response :=
  try_catch
    (let id := req_id req in
     let timesheetData := default ∅ (req_body req) in
     let! updatedTimesheet := TimesheetRepository.updateTimesheet req id timesheetData in
     ret (SendFormatted updatedTimesheet "Timesheet updated successfully" None))
    (fun error =>
       logError error req "TimesheetService-updateTimesheet";;
       ret (SendError (Caught error) "Timesheet update failed" None)).

Definition deleteTimesheet `{Collaborators} (req : Request) : M Response :=
  try_catch
    (let id := req_id req in
     let! deletedTimesheet := TimesheetRepository.deleteTimesheet req id in
     ret (SendFormatted deletedTimesheet "Timesheet deleted successfully" None))
    (fun error =>
       logError error req "TimesheetService-deleteTimesheet";;
       ret (SendError (Caught error) "Timesheet deletion failed" None)).
End TimesheetService.

Module CustomerService.
Definition getCustomers `{Collaborators} (req : Request) : M Response :=
  try_catch
    (let pagination := paginationHandler req in
     let search := searchHandler req in
     let! customers := CustomerRepository.getCustomers req pagination search in
     ret (SendArrayFormatted customers "Customers retrieved successfully" None))
    (fun error =>
       logError error req "CustomerService-getCustomers";;
       ret (SendError (Caught error) "Customers retrieval failed" None)).

Definition getCustomer `{Collaborators} (req : Request) : M Response :=
  try_catch
    (let id := req_id req in
     let! customer := CustomerRepository.getCustomerById req id in
     ret (SendFormatted customer "Customer retrieved successfully" None))
    (fun error =>
       logError error req "CustomerService-getCustomer";;
       ret (SendError (Caught error) "Customer retrieval failed" None)).

(** [req.body] is handed to the repository as it is; an undefined body is an
    object without fields to the mapper. *)
Definition createCustomer `{Collaborators} (req : Request) : M Response :=
  try_catch
    (let customerData := default ∅ (req_body req) in
     let! newCustomer := CustomerRepository.createCustomer req customerData in
     ret (SendFormatted newCustomer "Customer created successfully" (Some 201%Z)))
    (fun error =>
       logError error req "CustomerService-createCustomer";;
       ret (SendError (Caught error) "Customer creation failed" None)).

Definition updateCustomer `{Collaborators} (req : Request) : M Response :=
  try_catch
    (let id := req_id req in
     let customerData := default ∅ (req_body req) in
     let! updatedCustomer := CustomerRepository.updateCustomer req id customerData in
     ret (SendFormatted updatedCustomer "Customer updated successfully" None))
    (fun error =>
       logError error req "CustomerService-updateCustomer";;
       ret (SendError (Caught error) "Customer update failed" None)).

Definition deleteCustomer `{Collaborators} (req : Request) : M Response :=
  try_catch
    (let id := req_id req in
     let! deletedCustomer := CustomerRepository.deleteCustomer req id in
     ret (SendFormatted deletedCustomer "Customer deleted successfully" None))
    (fun error =>
       logError error req "CustomerService-deleteCustomer";;
       ret (SendError (Caught error) "Customer deletion failed" None)).
End CustomerService.

(** ** Middlewares

    A middleware either answers the request or calls [next()]. *)

Inductive Step :=
| Next
| Respond (r : Response).

(** [const { a, b } = req.body]: destructuring an undefined body throws. *)
Definition destructure_body (req : Request) : M (gmap string jsval) :=
  match req_body req with
  | Some body => ret body
  | None => throw (TypeError "Cannot destructure property of undefined")
  end.

(** The [catch] clause of every middleware, its validation answer, and the
    identifier check that the get and delete middlewares share. *)
Definition unexpected (req : Request) (label : string) (error : JsError) : M Step :=
  logError error req label;;
  ret (Respond (SendError (Caught error) "An unexpected error occurred" (Some 500%Z))).

Definition reject (text : string) : M Step :=
  ret (Respond (SendError (Text ("ValidationError: " ++ text)) text (Some 400%Z))).

Definition require_id (req : Request) (label : string) : M Step :=
  try_catch
    (let id := req_id req in
     if negb (truthy (JStr id)) then reject "ID must be provided"
     else ret Next)
    (unexpected req label).

Module ServiceCompanyMiddleware.
Definition createServiceCompany (req : Request) : M Step :=
  try_catch
    (let! body := destructure_body req in
     let name := prop body "name" in
     let address := prop body "address" in
     if negb (truthy name) || negb (truthy address)
     then reject "Name and Address must be provided"
     else ret Next)
    (unexpected req "Middleware-ServiceCompanyCreate").

Definition updateServiceCompany (req : Request) : M Step :=
  try_catch
    (let! body := destructure_body req in
     let name := prop body "name" in
     let address := prop body "address" in
     if negb (truthy name) && negb (truthy address)
     then reject "At least one field (Name or Address) must be provided"
     else ret Next)
    (unexpected req "Middleware-ServiceCompanyUpdate").

Definition deleteServiceCompany (req : Request) : M Step :=
  require_id req "Middleware-ServiceCompanyDelete".
End ServiceCompanyMiddleware.

Module TimesheetMiddleware.
Definition createTimesheet (req : Request) : M Step :=
  try_catch
    (let! body := destructure_body req in
     let activity := prop body "activity" in
     let worker := prop body "worker" in
     let manager := prop body "manager" in
     let startTime := prop body "startTime" in
     let endTime := prop body "endTime" in
     let file := prop body "file" in
     if negb (truthy activity) || negb (truthy worker) || negb (truthy manager)
        || negb (truthy startTime) || negb (truthy endTime) || negb (truthy file)
     then reject "Activity, Worker, Manager, StartTime, EndTime, and File must be provided"
     else ret Next)
    (unexpected req "Middleware-TimesheetCreate").

Definition updateTimesheet (req : Request) : M Step :=
  try_catch
    (let! body := destructure_body req in
     let activity := prop body "activity" in
     let worker := prop body "worker" in
     let manager := prop body "manager" in
     let startTime := prop body "startTime" in
     let endTime := prop body "endTime" in
     let file := prop body "file" in
     if negb (truthy activity) && negb (truthy worker) && negb (truthy manager)
        && negb (truthy startTime) && negb (truthy endTime) && negb (truthy file)
     then reject "At least one of Activity, Worker, Manager, StartTime, EndTime, or File must be provided"
     else ret Next)
    (unexpected req "Middleware-TimesheetUpdate").

Definition deleteTimesheet (req : Request) : M Step :=
  require_id req "Middleware-TimesheetDelete".

Definition getTimesheet (req : Request) : M Step :=
  require_id req "Middleware-TimesheetGet".
End TimesheetMiddleware.

Module CustomerMiddleware.
Definition createCustomer (req : Request) : M Step :=
  try_catch
    (let! body := destructure_body req in
     let email := prop body "email" in
     let name := prop body "name" in
     let password := prop body "password" in
     if negb (truthy email) || negb (truthy name) || negb (truthy password)
     then reject "Email, Name, and Password must be provided"
     else ret Next)
    (unexpected req "Middleware-CustomerCreate").

Definition updateCustomer (req : Request) : M Step :=
  try_catch
    (let! body := destructure_body req in
     let email := prop body "email" in
     let name := prop body "name" in
     let password := prop body "password" in
     if negb (truthy email) && negb (truthy name) && negb (truthy password)
     then reject "At least one field (Email, Name, or Password) must be provided"
     else ret Next)
    (unexpected req "Middleware-CustomerUpdate").

Definition deleteCustomer (req : Request) : M Step :=
  require_id req "Middleware-CustomerDelete".

Definition getCustomer (req : Request) : M Step :=
  require_id req "Middleware-CustomerGet".
End CustomerMiddleware.

(** ** Routes

    A route runs its middlewares in order and its service method last; a
    middleware that answers ends the chain. *)

Fixpoint chain (middlewares : list (Request -> M Step)) (service : Request -> M Response)
    (req : Request) : M Response :=
  match middlewares with
  | [] => service req
  | mw :: rest =>
      let! step := mw req in
      match step with
      | Respond r => ret r
      | Next => chain rest service req
      end
  end.

Inductive Verb := GET | GET_id | POST | PATCH_id | DELETE_id.

Definition serviceCompanyRoute `{Collaborators} (v : Verb) : Request -> M Response :=
  match v with
  | GET => chain [] ServiceCompanyService.getServiceCompanies
  | GET_id => chain [ServiceCompanyMiddleware.deleteServiceCompany]
                ServiceCompanyService.getServiceCompany
  | POST => chain [ServiceCompanyMiddleware.createServiceCompany]
              ServiceCompanyService.createServiceCompany
  | PATCH_id => chain [ServiceCompanyMiddleware.updateServiceCompany]
                  ServiceCompanyService.updateServiceCompany
  | DELETE_id => chain [ServiceCompanyMiddleware.deleteServiceCompany]
                   ServiceCompanyService.deleteServiceCompany
  end.

Definition timesheetroute `{Collaborators} (v : Verb) : Request -> M Response :=
  match v with
  | GET => chain [] TimesheetService.getTimesheets
  | GET_id => chain [TimesheetMiddleware.getTimesheet] TimesheetService.getTimesheet
  | POST => chain [TimesheetMiddleware.createTimesheet] TimesheetService.createTimesheet
  | PATCH_id => chain [TimesheetMiddleware.updateTimesheet] TimesheetService.updateTimesheet
  | DELETE_id => chain [TimesheetMiddleware.deleteTimesheet] TimesheetService.deleteTimesheet
  end.

Definition customerRoute `{Collaborators} (v : Verb) : Request -> M Response :=
  match v with
  | GET => chain [] CustomerService.getCustomers
  | GET_id => chain [CustomerMiddleware.getCustomer] CustomerService.getCustomer
  | POST => chain [CustomerMiddleware.createCustomer] CustomerService.createCustomer
  | PATCH_id => chain [CustomerMiddleware.updateCustomer] CustomerService.updateCustomer
  | DELETE_id => chain [CustomerMiddleware.deleteCustomer] CustomerService.deleteCustomer
  end.

(** ** The entities and their methods *)

Inductive Entity := ProjectStatus | ActivityManager | ServiceCompany | Timesheet | Customer.

Definition model_of (e : Entity) : Model :=
  match e with
  | ProjectStatus => ProjectStatusModel
  | ActivityManager => ActivityManagerModel
  | ServiceCompany => ServiceCompanyModel
  | Timesheet => TimesheetModel
  | Customer => CustomerModel
  end.

Definition repo_list `{Collaborators} (e : Entity)
  : Request -> IPagination -> string -> M ListResult :=
  match e with
  | ProjectStatus => ProjectStatusRepository.getProjectStatuses
  | ActivityManager => ActivityManagerRepository.getActivityManagers
  | ServiceCompany => ServiceCompanyRepository.getServiceCompanies
  | Timesheet => TimesheetRepository.getTimesheets
  | Customer => CustomerRepository.getCustomers
  end.

Definition repo_getById `{Collaborators} (e : Entity)
  : Request -> string -> M (gmap string jsval) :=
  match e with
  | ProjectStatus => ProjectStatusRepository.getProjectStatusById
  | ActivityManager => ActivityManagerRepository.getManagerById
  | ServiceCompany => ServiceCompanyRepository.getServiceCompanyById
  | Timesheet => TimesheetRepository.getTimesheetById
  | Customer => CustomerRepository.getCustomerById
  end.

Definition repo_create `{Collaborators} (e : Entity)
  : Request -> gmap string jsval -> M (gmap string jsval) :=
  match e with
  | ProjectStatus => ProjectStatusRepository.createProjectStatus
  | ActivityManager => ActivityManagerRepository.createManager
  | ServiceCompany => ServiceCompanyRepository.createServiceCompany
  | Timesheet => TimesheetRepository.createTimesheet
  | Customer => CustomerRepository.createCustomer
  end.

Definition repo_update `{Collaborators} (e : Entity)
  : Request -> string -> gmap string jsval -> M (gmap string jsval) :=
  match e with
  | ProjectStatus => ProjectStatusRepository.updateProjectStatus
  | ActivityManager => ActivityManagerRepository.updateManager
  | ServiceCompany => ServiceCompanyRepository.updateServiceCompany
  | Timesheet => TimesheetRepository.updateTimesheet
  | Customer => CustomerRepository.updateCustomer
  end.

Definition repo_delete `{Collaborators} (e : Entity)
  : Request -> string -> M (gmap string jsval) :=
  match e with
  | ProjectStatus => ProjectStatusRepository.deleteProjectStatus
  | ActivityManager => ActivityManagerRepository.deleteManager
  | ServiceCompany => ServiceCompanyRepository.deleteServiceCompany
  | Timesheet => TimesheetRepository.deleteTimesheet
  | Customer => CustomerRepository.deleteCustomer
  end.

(** The class and method names, as the source declares them. *)
Inductive Operation := ListOp | GetByIdOp | CreateOp | UpdateOp | DeleteOp.

Definition repository_class (e : Entity) : string :=
  match e with
  | ProjectStatus => "ProjectStatusRepository"
  | ActivityManager => "ActivityManagerRepository"
  | ServiceCompany => "ServiceCompanyRepository"
  | Timesheet => "TimesheetRepository"
  | Customer => "CustomerRepository"
  end.

Definition method_name (e : Entity) (o : Operation) : string :=
  match e, o with
  | ProjectStatus, ListOp => "getProjectStatuses"
  | ProjectStatus, GetByIdOp => "getProjectStatusById"
  | ProjectStatus, CreateOp => "createProjectStatus"
  | ProjectStatus, UpdateOp => "updateProjectStatus"
  | ProjectStatus, DeleteOp => "deleteProjectStatus"
  | ActivityManager, ListOp => "getActivityManagers"
  | ActivityManager, GetByIdOp => "getManagerById"
  | ActivityManager, CreateOp => "createManager"
  | ActivityManager, UpdateOp => "updateManager"
  | ActivityManager, DeleteOp => "deleteManager"
  | ServiceCompany, ListOp => "getServiceCompanies"
  | ServiceCompany, GetByIdOp => "getServiceCompanyById"
  | ServiceCompany, CreateOp => "createServiceCompany"
  | ServiceCompany, UpdateOp => "updateServiceCompany"
  | ServiceCompany, DeleteOp => "deleteServiceCompany"
  | Timesheet, ListOp => "getTimesheets"
  | Timesheet, GetByIdOp => "getTimesheetById"
  | Timesheet, CreateOp => "createTimesheet"
  | Timesheet, UpdateOp => "updateTimesheet"
  | Timesheet, DeleteOp => "deleteTimesheet"
  | Customer, ListOp => "getCustomers"
  | Customer, GetByIdOp => "getCustomerById"
  | Customer, CreateOp => "createCustomer"
  | Customer, UpdateOp => "updateCustomer"
  | Customer, DeleteOp => "deleteCustomer"
  end.

(** Running a repository method on arguments that fit every method. *)
Definition repo_run `{Collaborators} (e : Entity) (o : Operation) (req : Request)
    (pagination : IPagination) (search id : string) (fields : gmap string jsval)
  : World -> result unit * World := fun w =>
  let forget {A} (r : result A * World) : result unit * World :=
    (match fst r with Ok _ => Ok tt | Throw err => Throw err end, snd r) in
  match o with
  | ListOp => forget (repo_list e req pagination search w)
  | GetByIdOp => forget (repo_getById e req id w)
  | CreateOp => forget (repo_create e req fields w)
  | UpdateOp => forget (repo_update e req id fields w)
  | DeleteOp => forget (repo_delete e req id w)
  end.

(** The text field a search term is matched against, the entities whose
    queries keep to the records that are not deleted, and the references the
    returned documents have populated. *)
Definition search_field (e : Entity) : string :=
  match e with
  | Timesheet => "file"
  | _ => "name"
  end.

Definition soft_delete (e : Entity) : bool :=
  match e with
  | ActivityManager | Customer => true
  | _ => false
  end.

Definition populate_paths (e : Entity) : list (string * option string) :=
  match e with
  | ActivityManager => [("admin", Some "name")]
  | Timesheet => [("activity", None); ("worker", None); ("manager", None)]
  | _ => []
  end.

Definition presented `{Collaborators} (e : Entity) (d : gmap string jsval)
  : gmap string jsval :=
  populate_all (populate_paths e) d.

Definition not_found (e : Entity) : JsError :=
  match e with
  | ProjectStatus => Error "Project Status not found"
  | ActivityManager => Error "Manager not found"
  | ServiceCompany => Error "ServiceCompany not found"
  | Timesheet => Error "Timesheet not found"
  | Customer => Error "Customer not found"
  end.

(** The slices whose service, middleware and router are among the sources. *)
Inductive Slice := ServiceCompanySlice | TimesheetSlice | CustomerSlice.

Definition router `{Collaborators} (s : Slice) : Verb -> Request -> M Response :=
  match s with
  | ServiceCompanySlice => serviceCompanyRoute
  | TimesheetSlice => timesheetroute
  | CustomerSlice => customerRoute
  end.

Definition service `{Collaborators} (s : Slice) (v : Verb) : Request -> M Response :=
  match s, v with
  | ServiceCompanySlice, GET => ServiceCompanyService.getServiceCompanies
  | ServiceCompanySlice, GET_id => ServiceCompanyService.getServiceCompany
  | ServiceCompanySlice, POST => ServiceCompanyService.createServiceCompany
  | ServiceCompanySlice, PATCH_id => ServiceCompanyService.updateServiceCompany
  | ServiceCompanySlice, DELETE_id => ServiceCompanyService.deleteServiceCompany
  | TimesheetSlice, GET => TimesheetService.getTimesheets
  | TimesheetSlice, GET_id => TimesheetService.getTimesheet
  | TimesheetSlice, POST => TimesheetService.createTimesheet
  | TimesheetSlice, PATCH_id => TimesheetService.updateTimesheet
  | TimesheetSlice, DELETE_id => TimesheetService.deleteTimesheet
  | CustomerSlice, GET => CustomerService.getCustomers
  | CustomerSlice, GET_id => CustomerService.getCustomer
  | CustomerSlice, POST => CustomerService.createCustomer
  | CustomerSlice, PATCH_id => CustomerService.updateCustomer
  | CustomerSlice, DELETE_id => CustomerService.deleteCustomer
  end.

Definition entity_of (s : Slice) : Entity :=
  match s with
  | ServiceCompanySlice => ServiceCompany
  | TimesheetSlice => Timesheet
  | CustomerSlice => Customer
  end.

Definition operation_of (v : Verb) : Operation :=
  match v with
  | GET => ListOp
  | GET_id => GetByIdOp
  | POST => CreateOp
  | PATCH_id => UpdateOp
  | DELETE_id => DeleteOp
  end.

(** The repository call a service method makes, with the arguments it takes
    from the request. *)
Definition service_call `{Collaborators} (s : Slice) (v : Verb) (req : Request)
  : World -> result unit * World :=
  repo_run (entity_of s) (operation_of v) req (paginationHandler req)
    (searchHandler req) (req_id req) (default ∅ (req_body req)).

Definition create_middleware (s : Slice) : Request -> M Step :=
  match s with
  | ServiceCompanySlice => ServiceCompanyMiddleware.createServiceCompany
  | TimesheetSlice => TimesheetMiddleware.createTimesheet
  | CustomerSlice => CustomerMiddleware.createCustomer
  end.

Definition update_middleware (s : Slice) : Request -> M Step :=
  match s with
  | ServiceCompanySlice => ServiceCompanyMiddleware.updateServiceCompany
  | TimesheetSlice => TimesheetMiddleware.updateTimesheet
  | CustomerSlice => CustomerMiddleware.updateCustomer
  end.

(** The fields the create middleware reads, and the fields of the update
    interfaces ([IUpdateServiceCompany], [IUpdateTimesheet],
    [IUpdateCustomer]). *)
Definition required_fields (s : Slice) : list string :=
  match s with
  | ServiceCompanySlice => ["name"; "address"]
  | TimesheetSlice => ["activity"; "worker"; "manager"; "startTime"; "endTime"; "file"]
  | CustomerSlice => ["email"; "name"; "password"]
  end.

Definition updatable_fields (s : Slice) : list string :=
  match s with
  | ServiceCompanySlice => ["name"; "address"; "description"; "map"; "url"]
  | TimesheetSlice =>
      ["activity"; "worker"; "manager"; "startTime"; "endTime"; "hoursSpent";
       "date"; "file"; "isPending"; "isRejected"; "isAccepted"; "isResubmitted";
       "rejectionReason"]
  | CustomerSlice => ["email"; "isActive"; "isDeleted"; "name"; "password"]
  end.

(** ** Well-formed stores and the words of the specification *)

Definition doc_id (d : gmap string jsval) : jsval := prop d "_id".

(** The store keeps [_id] unique within a collection. *)
Definition ids_unique (c : list (gmap string jsval)) : Prop :=
  NoDup (map doc_id c).

(** [id] resolves to the record [d] of the collection, split around it. *)
Definition resolves (c : list (gmap string jsval)) (id : string)
    (before : list (gmap string jsval)) (d : gmap string jsval)
    (after : list (gmap string jsval)) : Prop :=
  c = (before ++ d :: after)%list /\ doc_id d = JStr id /\ ids_unique c.

Definition lower (s : string) : string :=
  string_of_list_ascii (map to_lower (list_ascii_of_string s)).

(** [t] contains [s] as a case-insensitive substring. *)
Definition contains_ci (s t : string) : Prop :=
  exists pre post : string, lower t = pre ++ lower s ++ post.

(** A search term made of ordinary characters only. *)
Definition ordinary (s : string) : Prop :=
  Forall (fun c => is_plain c = true) (list_ascii_of_string s).

(** The records a list operation is to include for a search term: those
    whose text field contains the term, all of them when there is no term;
    the entities with soft delete keep to the records not deleted. *)
Definition included (e : Entity) (search : string) (d : gmap string jsval) : Prop :=
  (search <> "" ->
   exists t, prop d (search_field e) = JStr t /\ contains_ci search t) /\
  (soft_delete e = true -> prop d "isDeleted" = JBool false).

(** [k] is the ceiling of [n / l], for a positive [l]. *)
Definition is_ceiling (n l k : Z) : Prop :=
  ((k - 1) * l < n <= k * l)%Z.

(** The window of a page. *)
Definition page_window {A} (p : IPagination) (l : list A) : list A :=
  take (Z.to_nat (limit p)) (drop (Z.to_nat ((page p - 1) * limit p)) l).

(** Collaborators to run the handlers on concrete inputs: no pattern outside
    the fragment is accepted, references stay as they are, a new document is
    the given fields under an identifier as long as the collection. *)
Definition demo_collaborators : Collaborators := {|
  pcre_compile := fun _ _ => None;
  populated := fun _ _ d => d;
  new_document := fun _ c fields =>
    Ok (<["_id" := JStr (string_of_list_ascii (repeat "x"%char (S (length c))))]> fields);
  paginationHandler := fun _ => {| page := 1; limit := 10 |};
  searchHandler := fun req => default "" (req_query req !! "search");
|}.

(** Concrete inputs. *)
Definition empty_db : Database :=
  {| projectStatuses := []; activityManagers := []; serviceCompanies := [];
     timesheets := []; customers := [] |}.

Definition acme : gmap string jsval :=
  {[ "_id" := JStr "c1"; "name" := JStr "Acme Corp"; "email" := JStr "a@b.com";
     "isDeleted" := JBool false ]}.

Definition acme_world : World :=
  {| db := set_collection CustomerModel [acme] empty_db; faults := []; errorLog := [] |}.

Definition request (id : string) (body : option (gmap string jsval)) : Request :=
  {| req_id := id; req_query := ∅; req_body := body |}.

Definition with_body (req : Request) (body : gmap string jsval) : Request :=
  {| req_id := req_id req; req_query := req_query req; req_body := Some body |}.

(** The label each repository method logs under, as the source spells it. *)
Definition logged_label (e : Entity) (o : Operation) : string :=
  match e, o with
  | ActivityManager, ListOp => "ManagerRepository-getManagers"
  | ActivityManager, GetByIdOp => "ManagerRepository-getManagerById"
  | ActivityManager, CreateOp => "ManagerRepository-createManager"
  | ActivityManager, UpdateOp => "ManagerRepository-updateManager"
  | ActivityManager, DeleteOp => "ManagerRepository-deleteManager"
  | _, _ => repository_class e ++ "-" ++ method_name e o
  end.

(** A computation that leaves the error log as it is. *)
Definition log_neutral {A} (m : M A) : Prop :=
  forall w, errorLog (snd (m w)) = errorLog w.

Definition acme_deleted : gmap string jsval := <["isDeleted" := JBool true]> acme.

Definition acme_deleted_world : World :=
  {| db := set_collection CustomerModel [acme_deleted] empty_db; faults := [];
     errorLog := [] |}.

Definition blank_email_body : gmap string jsval :=
  {[ "email" := JStr ""; "name" := JStr "A"; "password" := JStr "x" ]}.

Definition depot : gmap string jsval :=
  {[ "_id" := JStr "s1"; "name" := JStr "Depot"; "address" := JStr "1 Road" ]}.

Definition depot_world : World :=
  {| db := set_collection ServiceCompanyModel [depot] empty_db; faults := [];
     errorLog := [] |}.

(** ** Notions the proofs use *)

(** The filters of the queries for one document. *)
Definition by_id (id : string) (d : gmap string jsval) : bool :=
  bool_decide (prop d "_id" = JStr id) && true.

Definition live_by_id (id : string) (d : gmap string jsval) : bool :=
  bool_decide (prop d "_id" = JStr id) &&
  (bool_decide (prop d "isDeleted" = JBool false) && true).

Definition with_collection (m : Model) (c : list (gmap string jsval)) (w : World) : World :=
  {| db := set_collection m c (db w); faults := []; errorLog := errorLog w |}.

Definition logged (w : World) (e : JsError) (req : Request) (label : string) : World :=
  {| db := db w; faults := faults w;
     errorLog := errorLog w ++ [{| log_error := e; log_req := req; log_label := label |}] |}.

(** The query a list operation builds. *)
Definition list_query (e : Entity) (search : string) : gmap string condition :=
  let query : gmap string condition :=
    if soft_delete e then {[ "isDeleted" := Equals (JBool false) ]} else ∅ in
  if truthy (JStr search) then <[search_field e := Regex search "i"]> query else query.

Definition lits (cs : list ascii) : string :=
  string_of_list_ascii (map to_lower cs).

Definition holds `{Collaborators} (c : condition) (v : jsval) : Prop :=
  exists test, condition_compile c = Some test /\ test v = true.

Open Scope list_scope.

(** * Properties *)

(** ** The store *)

Lemma collection_set_collection m c d : collection m (set_collection m c d) = c.
Proof. destruct m; reflexivity. Qed.

Lemma storage_quiet {A} m (op : list (gmap string jsval) -> result A * option (list (gmap string jsval))) w :
  faults w = [] ->
  storage m op w =
    (fst (op (collection m (db w))),
     {| db := match snd (op (collection m (db w))) with
              | Some c => set_collection m c (db w)
              | None => db w
              end;
        faults := []; errorLog := errorLog w |}).
Proof.
  intros Hq. unfold storage. rewrite Hq.
  destruct (op (collection m (db w))); reflexivity.
Qed.

Lemma storage_fault {A} m (op : list (gmap string jsval) -> result A * option (list (gmap string jsval))) w e fs :
  faults w = Some e :: fs ->
  storage m op w = (Throw e, {| db := db w; faults := fs; errorLog := errorLog w |}).
Proof. intros Hq. unfold storage. rewrite Hq. reflexivity. Qed.

Lemma query_by_id `{Collaborators} id :
  query_compile {[ "_id" := Equals (JStr id) ]} = Ok (by_id id).
Proof.
  unfold query_compile.
  assert (map_to_list ({[ "_id" := Equals (JStr id) ]} : gmap string condition)
          = [("_id", Equals (JStr id))]) as -> by (vm_compute; reflexivity).
  reflexivity.
Qed.

Lemma query_live_by_id `{Collaborators} id :
  query_compile {[ "_id" := Equals (JStr id); "isDeleted" := Equals (JBool false) ]}
  = Ok (live_by_id id).
Proof.
  unfold query_compile.
  assert (map_to_list ({[ "_id" := Equals (JStr id);
                          "isDeleted" := Equals (JBool false) ]} : gmap string condition)
          = [("_id", Equals (JStr id)); ("isDeleted", Equals (JBool false))]) as ->
    by (vm_compute; reflexivity).
  reflexivity.
Qed.

Lemma by_id_true id d : by_id id d = true <-> doc_id d = JStr id.
Proof.
  unfold by_id, doc_id. rewrite andb_true_r. apply bool_decide_eq_true.
Qed.

Lemma live_by_id_true id d :
  live_by_id id d = true <-> doc_id d = JStr id /\ prop d "isDeleted" = JBool false.
Proof.
  unfold live_by_id, doc_id. rewrite andb_true_r, andb_true_iff.
  rewrite !bool_decide_eq_true. reflexivity.
Qed.

(** ** First matches in a collection with unique identifiers *)

Section FirstMatch.
Variable p : gmap string jsval -> bool.

Lemma find_first l1 d l2 :
  Forall (fun x => p x = false) l1 -> p d = true ->
  List.find p (l1 ++ d :: l2) = Some d.
Proof.
  intros Hl Hd. induction Hl as [|x l Hx _ IH]; simpl.
  - rewrite Hd. reflexivity.
  - rewrite Hx. exact IH.
Qed.

Lemma find_none l :
  Forall (fun x => p x = false) l -> List.find p l = None.
Proof.
  intros Hl. induction Hl as [|x l Hx _ IH]; simpl; [reflexivity|].
  rewrite Hx. exact IH.
Qed.

Lemma replace_first_split l1 d d' l2 :
  Forall (fun x => p x = false) l1 -> p d = true ->
  replace_first p d' (l1 ++ d :: l2) = l1 ++ d' :: l2.
Proof.
  intros Hl Hd. induction Hl as [|x l Hx _ IH]; simpl.
  - rewrite Hd. reflexivity.
  - rewrite Hx, IH. reflexivity.
Qed.

Lemma remove_first_split l1 d l2 :
  Forall (fun x => p x = false) l1 -> p d = true ->
  remove_first p (l1 ++ d :: l2) = l1 ++ l2.
Proof.
  intros Hl Hd. induction Hl as [|x l Hx _ IH]; simpl.
  - rewrite Hd. reflexivity.
  - rewrite Hx, IH. reflexivity.
Qed.
End FirstMatch.

Lemma resolves_others c id l1 d l2 :
  resolves c id l1 d l2 ->
  Forall (fun x => doc_id x <> JStr id) l1 /\ Forall (fun x => doc_id x <> JStr id) l2.
Proof.
  intros (-> & Hid & Hu). unfold ids_unique in Hu.
  rewrite map_app in Hu. simpl in Hu.
  apply NoDup_app in Hu as (_ & Hdisj & Hr).
  apply NoDup_cons in Hr as (Hnot & _).
  split; apply Forall_forall; intros x Hx Heq.
  - apply (Hdisj (doc_id x)).
    + apply list_elem_of_fmap. exists x. split; [reflexivity|exact Hx].
    + rewrite Heq, <- Hid. left.
  - apply Hnot. rewrite Hid, <- Heq.
    apply list_elem_of_fmap. exists x. split; [reflexivity|exact Hx].
Qed.

(** ** Storage calls on a world without scheduled faults *)

Lemma quiet_world w :
  faults w = [] -> {| db := db w; faults := []; errorLog := errorLog w |} = w.
Proof. destruct w; simpl; intros ->; reflexivity. Qed.

Section Quiet.
Context `{Collaborators}.
Variables (m : Model) (w : World).
Hypothesis Hquiet : faults w = [].
Variables (q : gmap string condition) (p : gmap string jsval -> bool).
Hypothesis Hq : query_compile q = Ok p.

Lemma findOne_quiet : findOne m q w = (Ok (List.find p (collection m (db w))), w).
Proof.
  unfold findOne. rewrite storage_quiet by exact Hquiet. rewrite Hq. simpl.
  rewrite quiet_world by exact Hquiet. reflexivity.
Qed.

Lemma findOneAndUpdate_miss update new :
  List.find p (collection m (db w)) = None ->
  findOneAndUpdate m q update new w = (Ok None, w).
Proof.
  intros Hf. unfold findOneAndUpdate. rewrite storage_quiet by exact Hquiet.
  rewrite Hq, Hf. simpl. rewrite quiet_world by exact Hquiet. reflexivity.
Qed.

Lemma findOneAndUpdate_hit update d d' :
  List.find p (collection m (db w)) = Some d ->
  apply_update update d = Ok d' ->
  findOneAndUpdate m q update true w =
    (Ok (Some d'), with_collection m (replace_first p d' (collection m (db w))) w).
Proof.
  intros Hf Hu. unfold findOneAndUpdate. rewrite storage_quiet by exact Hquiet.
  rewrite Hq, Hf, Hu. reflexivity.
Qed.
End Quiet.

Lemma findById_quiet `{Collaborators} m w id :
  faults w = [] ->
  findById m id w = (Ok (List.find (by_id id) (collection m (db w))), w).
Proof. intros Hq. apply findOne_quiet; [exact Hq | apply query_by_id]. Qed.

Lemma findByIdAndDelete_hit `{Collaborators} m w id d :
  faults w = [] ->
  List.find (by_id id) (collection m (db w)) = Some d ->
  findByIdAndDelete m id w =
    (Ok (Some d), with_collection m (remove_first (by_id id) (collection m (db w))) w).
Proof.
  intros Hq Hf. unfold findByIdAndDelete. rewrite storage_quiet by exact Hq.
  rewrite query_by_id, Hf. reflexivity.
Qed.

Lemma apply_update_flag d :
  apply_update {[ "isDeleted" := JBool true ]} d = Ok (<["isDeleted" := JBool true]> d).
Proof.
  unfold apply_update. rewrite lookup_singleton_ne by discriminate.
  rewrite insert_union_singleton_l. reflexivity.
Qed.

(** Where an identifier resolves, the queries for one document find it. *)
Lemma resolves_find_by_id c id l1 d l2 :
  resolves c id l1 d l2 -> List.find (by_id id) c = Some d.
Proof.
  intros Hr. destruct (resolves_others _ _ _ _ _ Hr) as [H1 _].
  destruct Hr as (-> & Hid & _). apply find_first.
  - eapply Forall_impl; [exact H1|]. intros x Hx. simpl.
    destruct (by_id id x) eqn:E; [|reflexivity]. apply by_id_true in E. contradiction.
  - apply by_id_true. exact Hid.
Qed.

Lemma resolves_by_id_split c id l1 d l2 :
  resolves c id l1 d l2 ->
  Forall (fun x => by_id id x = false) l1 /\ by_id id d = true /\
  Forall (fun x => by_id id x = false) l2.
Proof.
  intros Hr. destruct (resolves_others _ _ _ _ _ Hr) as [H1 H2].
  destruct Hr as (-> & Hid & _). repeat split.
  - eapply Forall_impl; [exact H1|]. intros x Hx. simpl.
    destruct (by_id id x) eqn:E; [|reflexivity]. apply by_id_true in E. contradiction.
  - apply by_id_true. exact Hid.
  - eapply Forall_impl; [exact H2|]. intros x Hx. simpl.
    destruct (by_id id x) eqn:E; [|reflexivity]. apply by_id_true in E. contradiction.
Qed.

Lemma resolves_live_split c id l1 d l2 :
  resolves c id l1 d l2 ->
  Forall (fun x => live_by_id id x = false) l1 /\
  Forall (fun x => live_by_id id x = false) l2.
Proof.
  intros Hr. destruct (resolves_others _ _ _ _ _ Hr) as [H1 H2].
  split; (eapply Forall_impl; [eassumption|]); intros x Hx; simpl;
    destruct (live_by_id id x) eqn:E; try reflexivity;
    apply live_by_id_true in E as [E _]; contradiction.
Qed.

(** No live record is left under an identifier whose record is flagged. *)
Lemma flagged_not_live c id l1 d l2 :
  resolves c id l1 d l2 -> prop d "isDeleted" = JBool true ->
  List.find (live_by_id id) c = None.
Proof.
  intros Hr Hdel. destruct (resolves_live_split _ _ _ _ _ Hr) as [H1 H2].
  destruct Hr as (-> & _ & _).
  apply find_none. apply Forall_app. split; [exact H1|].
  constructor; [|exact H2].
  destruct (live_by_id id d) eqn:E; [|reflexivity].
  apply live_by_id_true in E as [_ E]. congruence.
Qed.

Lemma resolves_flag c id l1 d l2 :
  resolves c id l1 d l2 ->
  resolves (l1 ++ <["isDeleted" := JBool true]> d :: l2) id l1
           (<["isDeleted" := JBool true]> d) l2.
Proof.
  intros (-> & Hid & Hu). split; [reflexivity|].
  assert (Hsame : doc_id (<["isDeleted" := JBool true]> d) = doc_id d).
  { unfold doc_id, prop. rewrite lookup_insert_ne by discriminate. reflexivity. }
  split; [rewrite Hsame; exact Hid|].
  unfold ids_unique in *. rewrite map_app in *. simpl in *. rewrite Hsame. exact Hu.
Qed.

Lemma with_collection_quiet m c w : faults (with_collection m c w) = [].
Proof. reflexivity. Qed.

Lemma collection_with_collection m c w :
  collection m (db (with_collection m c w)) = c.
Proof. apply collection_set_collection. Qed.

(** What a soft delete does where the identifier resolves to a live record. *)
Lemma soft_delete_runs `{Collaborators} (e : Entity) req id w l1 d l2 :
  soft_delete e = true ->
  faults w = [] ->
  resolves (collection (model_of e) (db w)) id l1 d l2 ->
  prop d "isDeleted" = JBool false ->
  repo_delete e req id w =
    (Ok (presented e (<["isDeleted" := JBool true]> d)),
     with_collection (model_of e) (l1 ++ <["isDeleted" := JBool true]> d :: l2) w).
Proof.
  intros Hsoft Hquiet Hr Hlive.
  destruct (resolves_live_split _ _ _ _ _ Hr) as [H1 _].
  assert (Hd : live_by_id id d = true).
  { apply live_by_id_true. split; [apply Hr | exact Hlive]. }
  pose proof Hr as (Hc & _ & _).
  destruct e; try discriminate Hsoft; cbn [model_of repo_delete] in *.
  - unfold ActivityManagerRepository.deleteManager, try_catch, bind. simpl.
    unfold bind.
    erewrite findOneAndUpdate_hit;
      [| exact Hquiet | apply query_live_by_id
       | rewrite Hc; apply find_first; eassumption | apply apply_update_flag ].
    rewrite Hc at 1. rewrite replace_first_split by assumption.
    reflexivity.
  - unfold CustomerRepository.deleteCustomer, try_catch, bind.
    erewrite findOneAndUpdate_hit;
      [| exact Hquiet | apply query_live_by_id
       | rewrite Hc; apply find_first; eassumption | apply apply_update_flag ].
    rewrite Hc at 1. rewrite replace_first_split by assumption.
    reflexivity.
Qed.

(** Reading by identifier where no live record carries it. *)
Lemma soft_get_not_found `{Collaborators} (e : Entity) req id w :
  soft_delete e = true ->
  faults w = [] ->
  List.find (live_by_id id) (collection (model_of e) (db w)) = None ->
  repo_getById e req id w =
    (Throw (not_found e),
     logged w (not_found e) req
       (match e with
        | ActivityManager => "ManagerRepository-getManagerById"
        | _ => "CustomerRepository-getCustomerById"
        end)).
Proof.
  intros Hsoft Hquiet Hnone.
  destruct e; try discriminate Hsoft; cbn [model_of repo_getById] in *.
  - unfold ActivityManagerRepository.getManagerById, try_catch, bind. simpl. unfold bind.
    erewrite findOne_quiet; [| exact Hquiet | apply query_live_by_id].
    rewrite Hnone. reflexivity.
  - unfold CustomerRepository.getCustomerById, try_catch, bind.
    erewrite findOne_quiet; [| exact Hquiet | apply query_live_by_id].
    rewrite Hnone. reflexivity.
Qed.

(** C1. For the entities with soft delete (Customer, ActivityManager), where
    an identifier resolves to a live record, the repository's delete followed
    by its getById with that identifier ends in the not-found error, while the
    record is still in the collection, at its place, with only its
    [isDeleted] flag set. *)
Theorem soft_delete_then_getById_not_found `{Collaborators}
    (e : Entity) (req req' : Request) (id : string) (w : World)
    (l1 : list (gmap string jsval)) (d : gmap string jsval)
    (l2 : list (gmap string jsval)) :
  soft_delete e = true ->
  faults w = [] ->
  resolves (collection (model_of e) (db w)) id l1 d l2 ->
  prop d "isDeleted" = JBool false ->
  exists deleted w1 w2,
    repo_delete e req id w = (Ok deleted, w1) /\
    repo_getById e req' id w1 = (Throw (not_found e), w2) /\
    collection (model_of e) (db w1) = l1 ++ <["isDeleted" := JBool true]> d :: l2 /\
    deleted = presented e (<["isDeleted" := JBool true]> d) /\
    db w2 = db w1.
Proof.
  intros Hsoft Hquiet Hr Hlive.
  eexists _, _, _. split; [apply soft_delete_runs; eassumption|].
  assert (Hnone : List.find (live_by_id id)
            (collection (model_of e)
               (db (with_collection (model_of e)
                      (l1 ++ <["isDeleted" := JBool true]> d :: l2) w))) = None).
  { rewrite collection_with_collection.
    eapply flagged_not_live; [eapply resolves_flag; exact Hr|].
    unfold prop. rewrite lookup_insert_eq. reflexivity. }
  split; [apply soft_get_not_found; [exact Hsoft | reflexivity | exact Hnone]|].
  split; [apply collection_with_collection | split; reflexivity].
Qed.

(** ** Storage calls on any world *)

(** A storage call that does not write leaves the database and the log as
    they are, whether it fails or not. *)
Lemma storage_read_only {A} m
    (op : list (gmap string jsval) -> result A * option (list (gmap string jsval))) w :
  snd (op (collection m (db w))) = None ->
  exists r w', storage m op w = (r, w') /\ db w' = db w /\ errorLog w' = errorLog w /\
    (r = fst (op (collection m (db w))) \/ exists e, r = Throw e).
Proof.
  intros Hro. unfold storage.
  destruct (faults w) as [|[e|] fs].
  - destruct (op (collection m (db w))) as [r c'] eqn:E. simpl in Hro. subst c'.
    eexists _, _. split; [reflexivity|]. simpl. auto.
  - eexists _, _. split; [reflexivity|]. simpl. eauto.
  - destruct (op (collection m (db w))) as [r c'] eqn:E. simpl in Hro. subst c'.
    eexists _, _. split; [reflexivity|]. simpl. auto.
Qed.

Lemma findOneAndUpdate_miss_any `{Collaborators} m q p update new w :
  query_compile q = Ok p ->
  List.find p (collection m (db w)) = None ->
  exists r w', findOneAndUpdate m q update new w = (r, w') /\
    db w' = db w /\ (r = Ok None \/ exists e, r = Throw e).
Proof.
  intros Hq Hf. unfold findOneAndUpdate.
  edestruct (storage_read_only (A := option (gmap string jsval)) m) as (r & w' & Hs & Hdb & _ & Hr);
    [| exists r, w'; split; [exact Hs|]; split; [exact Hdb|] ].
  - rewrite Hq, Hf. reflexivity.
  - rewrite Hq, Hf in Hr. exact Hr.
Qed.

(** C9. For the entities with soft delete (Customer, ActivityManager), a
    record whose [isDeleted] flag is true is out of reach of update and
    delete: each of them, applied to its identifier, ends in an error and
    leaves the database as it was, whatever the update payload holds. *)
Theorem soft_deleted_record_is_frozen `{Collaborators}
    (e : Entity) (req : Request) (id : string) (w : World)
    (l1 : list (gmap string jsval)) (d : gmap string jsval)
    (l2 : list (gmap string jsval)) (payload : gmap string jsval) :
  soft_delete e = true ->
  resolves (collection (model_of e) (db w)) id l1 d l2 ->
  prop d "isDeleted" = JBool true ->
  (exists err w', repo_update e req id payload w = (Throw err, w') /\ db w' = db w) /\
  (exists err w', repo_delete e req id w = (Throw err, w') /\ db w' = db w).
Proof.
  intros Hsoft Hr Hdel.
  pose proof (flagged_not_live _ _ _ _ _ Hr Hdel) as Hnone.
  destruct e; try discriminate Hsoft; cbn [model_of repo_update repo_delete] in *.
  - split.
    + destruct (findOneAndUpdate_miss_any ActivityManagerModel _ _ payload true w
                  (query_live_by_id id) Hnone) as (r & w' & Hs & Hdb & Hres).
      unfold ActivityManagerRepository.updateManager, try_catch, bind. simpl.
      unfold bind. rewrite Hs.
      destruct Hres as [-> | [err ->]]; simpl; eexists _, _; (split; [reflexivity | exact Hdb]).
    + destruct (findOneAndUpdate_miss_any ActivityManagerModel _ _
                  {[ "isDeleted" := JBool true ]} true w
                  (query_live_by_id id) Hnone) as (r & w' & Hs & Hdb & Hres).
      unfold ActivityManagerRepository.deleteManager, try_catch, bind. simpl.
      unfold bind. rewrite Hs.
      destruct Hres as [-> | [err ->]]; simpl; eexists _, _; (split; [reflexivity | exact Hdb]).
  - split.
    + destruct (findOneAndUpdate_miss_any CustomerModel _ _ payload true w
                  (query_live_by_id id) Hnone) as (r & w' & Hs & Hdb & Hres).
      unfold CustomerRepository.updateCustomer, try_catch, bind. rewrite Hs.
      destruct Hres as [-> | [err ->]]; simpl; eexists _, _; (split; [reflexivity | exact Hdb]).
    + destruct (findOneAndUpdate_miss_any CustomerModel _ _
                  {[ "isDeleted" := JBool true ]} true w
                  (query_live_by_id id) Hnone) as (r & w' & Hs & Hdb & Hres).
      unfold CustomerRepository.deleteCustomer, try_catch, bind. rewrite Hs.
      destruct Hres as [-> | [err ->]]; simpl; eexists _, _; (split; [reflexivity | exact Hdb]).
Qed.

(** What a hard delete does where the identifier resolves. *)
Lemma hard_delete_runs `{Collaborators} (e : Entity) req id w l1 d l2 :
  soft_delete e = false ->
  faults w = [] ->
  resolves (collection (model_of e) (db w)) id l1 d l2 ->
  repo_delete e req id w =
    (Ok (presented e d), with_collection (model_of e) (l1 ++ l2) w).
Proof.
  intros Hhard Hquiet Hr.
  destruct (resolves_by_id_split _ _ _ _ _ Hr) as (H1 & Hd & _).
  pose proof (resolves_find_by_id _ _ _ _ _ Hr) as Hf.
  pose proof Hr as (Hc & _ & _).
  destruct e; try discriminate Hhard; cbn [model_of repo_delete] in *.
  - unfold ProjectStatusRepository.deleteProjectStatus, try_catch, bind.
    rewrite (findByIdAndDelete_hit _ _ _ _ Hquiet Hf).
    rewrite Hc at 1. rewrite remove_first_split by assumption. reflexivity.
  - unfold ServiceCompanyRepository.deleteServiceCompany, try_catch, bind.
    rewrite (findByIdAndDelete_hit _ _ _ _ Hquiet Hf).
    rewrite Hc at 1. rewrite remove_first_split by assumption. reflexivity.
  - unfold TimesheetRepository.deleteTimesheet, try_catch, bind. simpl. unfold bind.
    rewrite (findByIdAndDelete_hit _ _ _ _ Hquiet Hf).
    rewrite Hc at 1. rewrite remove_first_split by assumption. reflexivity.
Qed.

Lemma hard_get_not_found `{Collaborators} (e : Entity) req id w :
  soft_delete e = false ->
  faults w = [] ->
  List.find (by_id id) (collection (model_of e) (db w)) = None ->
  exists w', repo_getById e req id w = (Throw (not_found e), w') /\ db w' = db w.
Proof.
  intros Hhard Hquiet Hnone.
  destruct e; try discriminate Hhard; cbn [model_of repo_getById] in *.
  - unfold ProjectStatusRepository.getProjectStatusById, try_catch, bind. simpl.
    rewrite (findById_quiet _ _ _ Hquiet), Hnone. eexists. split; reflexivity.
  - unfold ServiceCompanyRepository.getServiceCompanyById, try_catch, bind.
    rewrite (findById_quiet _ _ _ Hquiet), Hnone. eexists. split; reflexivity.
  - unfold TimesheetRepository.getTimesheetById, try_catch, bind. simpl. unfold bind.
    rewrite (findById_quiet _ _ _ Hquiet), Hnone. eexists. split; reflexivity.
Qed.

(** C7. Where an identifier resolves to a record (a live one for Customer
    and ActivityManager), delete takes the record out of the collection for
    ProjectStatus, ServiceCompany and Timesheet, and a getById with that
    identifier fails afterwards; for Customer and ActivityManager the record
    stays at its place and only has its flag set. *)
Theorem delete_removes_or_flags `{Collaborators}
    (e : Entity) (req req' : Request) (id : string) (w : World)
    (l1 : list (gmap string jsval)) (d : gmap string jsval)
    (l2 : list (gmap string jsval)) :
  faults w = [] ->
  resolves (collection (model_of e) (db w)) id l1 d l2 ->
  (soft_delete e = true -> prop d "isDeleted" = JBool false) ->
  exists deleted w1,
    repo_delete e req id w = (Ok deleted, w1) /\
    if soft_delete e then
      collection (model_of e) (db w1) = l1 ++ <["isDeleted" := JBool true]> d :: l2 /\
      length (collection (model_of e) (db w1)) = length (collection (model_of e) (db w))
    else
      collection (model_of e) (db w1) = l1 ++ l2 /\
      (forall x, x ∈ collection (model_of e) (db w1) -> doc_id x <> JStr id) /\
      exists w2, repo_getById e req' id w1 = (Throw (not_found e), w2).
Proof.
  intros Hquiet Hr Hlive.
  destruct (soft_delete e) eqn:Hsoft.
  - eexists _, _. split; [apply soft_delete_runs; auto; eassumption|].
    rewrite collection_with_collection. split; [reflexivity|].
    destruct Hr as (-> & _ & _). rewrite !length_app. reflexivity.
  - eexists _, _. split; [apply hard_delete_runs; eassumption|].
    rewrite collection_with_collection. split; [reflexivity|].
    destruct (resolves_others _ _ _ _ _ Hr) as [H1 H2].
    destruct (resolves_by_id_split _ _ _ _ _ Hr) as (B1 & _ & B2).
    split.
    + intros x Hx. apply elem_of_app in Hx as [Hx|Hx];
        [ eapply Forall_forall in H1 | eapply Forall_forall in H2 ]; eauto.
    + destruct (hard_get_not_found e req' id
                  (with_collection (model_of e) (l1 ++ l2) w) Hsoft eq_refl) as (w2 & Hg & _).
      * rewrite collection_with_collection. apply find_none.
        apply Forall_app. split; assumption.
      * exists w2. exact Hg.
Qed.

(** ** List operations *)

Lemma exec_quiet `{Collaborators} q p w l :
  faults w = [] ->
  query_compile (fq_filter q) = Ok p ->
  apply_skip (fq_skip q) (List.filter p (collection (fq_model q) (db w))) = Ok l ->
  exec q w = (Ok (map (populate_all (fq_populate q)) (apply_limit (fq_limit q) l)), w).
Proof.
  intros Hquiet Hq Hs. unfold exec. rewrite storage_quiet by exact Hquiet.
  rewrite Hq, Hs. simpl. rewrite quiet_world by exact Hquiet. reflexivity.
Qed.

Lemma countDocuments_quiet `{Collaborators} m q p w :
  faults w = [] ->
  query_compile q = Ok p ->
  countDocuments m q w = (Ok (Z.of_nat (length (List.filter p (collection m (db w))))), w).
Proof.
  intros Hquiet Hq. unfold countDocuments. rewrite storage_quiet by exact Hquiet.
  rewrite Hq. simpl. rewrite quiet_world by exact Hquiet. reflexivity.
Qed.

Lemma apply_skip_page (pg : IPagination) (l : list (gmap string jsval)) :
  (0 < page pg)%Z -> (0 < limit pg)%Z ->
  apply_skip (Some ((page pg - 1) * limit pg)%Z) l =
    Ok (drop (Z.to_nat ((page pg - 1) * limit pg)) l).
Proof.
  intros Hp Hl. unfold apply_skip.
  destruct (Z.ltb_spec ((page pg - 1) * limit pg) 0); [nia | reflexivity].
Qed.

Lemma apply_limit_page (pg : IPagination) (l : list (gmap string jsval)) :
  (0 < limit pg)%Z ->
  apply_limit (Some (limit pg)) l = take (Z.to_nat (limit pg)) l.
Proof.
  intros Hl. unfold apply_limit.
  destruct (Z.eqb_spec (limit pg) 0); [lia|].
  rewrite Zabs2Nat.abs_nat_nonneg by lia. reflexivity.
Qed.

Lemma map_populate_none `{Collaborators} (l : list (gmap string jsval)) :
  map (populate_all []) l = l.
Proof. induction l as [|x l IH]; simpl; [reflexivity | rewrite IH; reflexivity]. Qed.

Lemma map_toObject (l : list (gmap string jsval)) : map toObject l = l.
Proof. induction l as [|x l IH]; simpl; [reflexivity | rewrite IH; reflexivity]. Qed.

(** The four list operations that page: on a world without faults they
    return the window of the page over the matching records, and the count
    of all of them. *)
Lemma paged_list_runs `{Collaborators} (e : Entity) req pg search w p :
  e <> Timesheet ->
  faults w = [] ->
  (0 < page pg)%Z -> (0 < limit pg)%Z ->
  query_compile (list_query e search) = Ok p ->
  let matching := List.filter p (collection (model_of e) (db w)) in
  repo_list e req pg search w =
    (Ok {| data := map (presented e) (page_window pg matching);
           totalCount := Z.of_nat (length matching);
           currentPage := page pg;
           totalPages := Math_ceil_div (Z.of_nat (length matching)) (limit pg) |}, w).
Proof.
  intros Hne Hquiet Hp Hl Hq matching. subst matching.
  unfold list_query in Hq.
  destruct e; try congruence; cbn [model_of repo_list soft_delete search_field] in *.
  - unfold ProjectStatusRepository.getProjectStatuses, try_catch, bind.
    erewrite exec_quiet; [| exact Hquiet | exact Hq | apply apply_skip_page; assumption].
    erewrite countDocuments_quiet; [| exact Hquiet | exact Hq].
    cbn [fq_limit fq_populate lean Query.skip Query.limit find FindQuery_chainable].
    rewrite apply_limit_page by assumption.
    unfold presented, populate_paths. rewrite !map_populate_none. reflexivity.
  - unfold ActivityManagerRepository.getActivityManagers, try_catch, bind.
    erewrite countDocuments_quiet; [| exact Hquiet | exact Hq].
    erewrite exec_quiet; [| exact Hquiet | exact Hq | apply apply_skip_page; assumption].
    cbn [fq_limit fq_populate populate Query.skip Query.limit find FindQuery_chainable].
    rewrite apply_limit_page by assumption. reflexivity.
  - unfold ServiceCompanyRepository.getServiceCompanies, try_catch, bind.
    erewrite exec_quiet; [| exact Hquiet | exact Hq | apply apply_skip_page; assumption].
    erewrite countDocuments_quiet; [| exact Hquiet | exact Hq].
    cbn [fq_limit fq_populate lean Query.skip Query.limit find FindQuery_chainable].
    rewrite apply_limit_page by assumption.
    unfold presented, populate_paths. rewrite map_toObject, !map_populate_none. reflexivity.
  - unfold CustomerRepository.getCustomers, try_catch, bind.
    erewrite exec_quiet; [| exact Hquiet | exact Hq | apply apply_skip_page; assumption].
    erewrite countDocuments_quiet; [| exact Hquiet | exact Hq].
    cbn [fq_limit fq_populate lean Query.skip Query.limit find FindQuery_chainable].
    rewrite apply_limit_page by assumption.
    unfold presented, populate_paths. rewrite map_toObject, !map_populate_none. reflexivity.
Qed.

(** The Timesheet list neither skips nor limits. *)
Lemma timesheet_list_runs `{Collaborators} req pg search w p :
  faults w = [] ->
  query_compile (list_query Timesheet search) = Ok p ->
  let matching := List.filter p (timesheets (db w)) in
  TimesheetRepository.getTimesheets req pg search w =
    (Ok {| data := map (presented Timesheet) matching;
           totalCount := Z.of_nat (length matching);
           currentPage := page pg;
           totalPages := Math_ceil_div (Z.of_nat (length matching)) (limit pg) |}, w).
Proof.
  intros Hquiet Hq matching. subst matching. unfold list_query in Hq.
  cbn [soft_delete search_field] in Hq.
  unfold TimesheetRepository.getTimesheets, try_catch, bind.
  erewrite exec_quiet; [| exact Hquiet | exact Hq | reflexivity].
  erewrite countDocuments_quiet; [| exact Hquiet | exact Hq].
  reflexivity.
Qed.

(** [Math.ceil] of a quotient of integers is its ceiling. *)
Lemma Math_ceil_div_is_ceiling (n l : Z) :
  (0 < l)%Z ->
  exists k, Math_ceil_div n l = Num k /\ is_ceiling n l k.
Proof.
  intros Hl. unfold Math_ceil_div, is_ceiling.
  destruct (Z.eqb_spec l 0); [lia|].
  eexists. split; [reflexivity|].
  pose proof (Z.div_mod (- n) l ltac:(lia)) as Hdm.
  pose proof (Z.mod_pos_bound (- n) l Hl) as Hb.
  nia.
Qed.

Lemma is_ceiling_unique n l k k' :
  (0 < l)%Z -> is_ceiling n l k -> is_ceiling n l k' -> k = k'.
Proof. unfold is_ceiling. intros. nia. Qed.

(** Past the last page the window is empty. *)
Lemma page_window_beyond {A} (pg : IPagination) (l : list A) k :
  (0 < limit pg)%Z ->
  is_ceiling (Z.of_nat (length l)) (limit pg) k ->
  (k < page pg)%Z ->
  page_window pg l = [].
Proof.
  intros Hl [_ Hk] Hp. unfold page_window.
  rewrite drop_ge; [apply take_nil|]. nia.
Qed.

(** The paging operations return no record past the last page, and raise
    nothing. *)
Lemma paged_list_beyond_last_page `{Collaborators} (e : Entity) req pg search w p k :
  e <> Timesheet ->
  faults w = [] ->
  (0 < limit pg)%Z ->
  query_compile (list_query e search) = Ok p ->
  is_ceiling (Z.of_nat (length (List.filter p (collection (model_of e) (db w)))))
             (limit pg) k ->
  (0 < page pg)%Z -> (k < page pg)%Z ->
  exists r, repo_list e req pg search w = (Ok r, w) /\ data r = [] /\ totalPages r = Num k.
Proof.
  intros Hne Hquiet Hl Hq Hk Hp0 Hp.
  pose proof (paged_list_runs e req pg search w p Hne Hquiet Hp0 Hl Hq) as Hrun.
  cbv zeta in Hrun. eexists. split; [exact Hrun|]. simpl. split.
  - erewrite page_window_beyond; [reflexivity | exact Hl | exact Hk | exact Hp].
  - destruct (Math_ceil_div_is_ceiling
                (Z.of_nat (length (List.filter p (collection (model_of e) (db w)))))
                (limit pg) Hl) as (k' & -> & Hk').
    f_equal. exact (is_ceiling_unique _ _ _ _ Hl Hk' Hk).
Qed.

(** ** Search terms *)

Lemma lower_cons a t : lower (String a t) = String (to_lower a) (lower t).
Proof. reflexivity. Qed.

Lemma lower_lits s : lower s = lits (list_ascii_of_string s).
Proof. reflexivity. Qed.

(** A term of ordinary characters is read as the sequence of its letters. *)
Lemma parse_ordinary s :
  ordinary s -> parse_fragment s = Some (map Lit (list_ascii_of_string s)).
Proof.
  unfold ordinary. induction s as [|c s IH]; simpl; intros Hs; [reflexivity|].
  apply Forall_cons in Hs as [Hc Hs].
  destruct (Ascii.eqb_spec c ".") as [->|_]; [discriminate Hc|].
  rewrite Hc, (IH Hs). reflexivity.
Qed.

Lemma match_here_lits cs t :
  match_here true (map Lit cs) t = true <->
  exists post, lower t = (lits cs ++ post)%string.
Proof.
  revert t. induction cs as [|c cs IH]; intros t; simpl.
  - split; [intros _; exists (lower t); reflexivity | reflexivity].
  - destruct t as [|a t].
    + split; [discriminate | intros [post Hp]; discriminate Hp].
    + rewrite andb_true_iff, IH, lower_cons. unfold lits. simpl.
      split.
      * intros [Ha [post Hp]]. exists post.
        apply Ascii.eqb_eq in Ha. rewrite Ha, Hp. reflexivity.
      * intros [post Hp]. injection Hp as Ha Hp. split.
        -- apply Ascii.eqb_eq. congruence.
        -- exists post. exact Hp.
Qed.

Lemma search_from_lits cs t :
  search_from true (map Lit cs) t = true <->
  exists pre post, lower t = (pre ++ lits cs ++ post)%string.
Proof.
  induction t as [|a t IH].
  - simpl search_from. rewrite orb_false_r, match_here_lits. split.
    + intros [post Hp]. exists "", post. exact Hp.
    + intros (pre & post & Hp). destruct pre; [|discriminate Hp].
      exists post. exact Hp.
  - simpl search_from. rewrite orb_true_iff, match_here_lits, IH. split.
    + intros [[post Hp] | (pre & post & Hp)].
      * exists "", post. exact Hp.
      * exists (String (to_lower a) pre), post. rewrite lower_cons, Hp. reflexivity.
    + intros (pre & post & Hp). destruct pre as [|x pre].
      * left. exists post. exact Hp.
      * right. rewrite lower_cons in Hp. simpl in Hp. injection Hp as _ Hp.
        exists pre, post. exact Hp.
Qed.

(** On a term of ordinary characters the caseless pattern is the
    case-insensitive substring test. *)
Lemma search_is_contains_ci s t :
  search_from true (map Lit (list_ascii_of_string s)) t = true <-> contains_ci s t.
Proof. rewrite search_from_lits. unfold contains_ci. rewrite lower_lits. reflexivity. Qed.

Lemma regex_compile_ordinary `{Collaborators} s :
  ordinary s ->
  regex_compile s "i" = Some (search_from true (map Lit (list_ascii_of_string s))).
Proof. intros Hs. unfold regex_compile. rewrite (parse_ordinary s Hs). reflexivity. Qed.

(** ** Filters *)

Lemma filter_compile_Some `{Collaborators} conds p :
  filter_compile conds = Some p ->
  forall d, p d = true <-> Forall (fun kc => holds (snd kc) (prop d (fst kc))) conds.
Proof.
  revert p. induction conds as [|[k c] conds IH]; simpl; intros p Hp d.
  - injection Hp as <-. split; [constructor | reflexivity].
  - destruct (condition_compile c) as [test|] eqn:Hc; [|discriminate].
    destruct (filter_compile conds) as [others|] eqn:Ho; [|discriminate].
    injection Hp as <-. rewrite andb_true_iff, (IH others eq_refl d), Forall_cons.
    simpl. unfold holds. rewrite Hc. split.
    + intros [Ht Hrest]. split; [exists test; auto | exact Hrest].
    + intros [(test' & Heq & Ht) Hrest]. injection Heq as <-. auto.
Qed.

Lemma filter_compile_is_Some `{Collaborators} conds :
  Forall (fun kc => is_Some (condition_compile (snd kc))) conds ->
  is_Some (filter_compile conds).
Proof.
  induction 1 as [|[k c] conds [test Hc] _ [others Ho]]; simpl.
  - eexists; reflexivity.
  - simpl in Hc. rewrite Hc, Ho. eexists; reflexivity.
Qed.

Lemma query_compile_Ok `{Collaborators} (q : gmap string condition) p :
  query_compile q = Ok p ->
  forall d, p d = true <-> forall k c, q !! k = Some c -> holds c (prop d k).
Proof.
  unfold query_compile. intros Hq d.
  destruct (filter_compile (map_to_list q)) as [p'|] eqn:Hf; [|discriminate].
  injection Hq as <-. rewrite (filter_compile_Some _ _ Hf d), Forall_forall.
  split.
  - intros Hall k c Hk. apply (Hall (k, c)). apply elem_of_map_to_list. exact Hk.
  - intros Hall [k c] Hk. apply Hall. apply elem_of_map_to_list. exact Hk.
Qed.

Lemma query_compile_is_Ok `{Collaborators} (q : gmap string condition) :
  (forall k c, q !! k = Some c -> is_Some (condition_compile c)) ->
  exists p, query_compile q = Ok p.
Proof.
  intros Hall. unfold query_compile.
  destruct (filter_compile_is_Some (map_to_list q)) as [p Hp].
  - apply Forall_forall. intros [k c] Hk. apply (Hall k c).
    apply elem_of_map_to_list. exact Hk.
  - rewrite Hp. eexists; reflexivity.
Qed.

Lemma truthy_search s : truthy (JStr s) = true <-> s <> "".
Proof.
  simpl. destruct (String.eqb_spec s ""); simpl; split; congruence.
Qed.

Lemma list_query_lookup e s k c :
  list_query e s !! k = Some c <->
  (s <> "" /\ k = search_field e /\ c = Regex s "i") \/
  (soft_delete e = true /\ k = "isDeleted" /\ c = Equals (JBool false)).
Proof.
  assert (Hfield : search_field e <> "isDeleted") by (destruct e; discriminate).
  unfold list_query.
  destruct (truthy (JStr s)) eqn:Ht.
  - apply truthy_search in Ht. rewrite lookup_insert.
    destruct (decide (search_field e = k)) as [<-|Hk].
    + split.
      * intros [= <-]. left. auto.
      * intros [(_ & _ & ->) | (_ & Hk & _)]; [reflexivity | contradiction].
    + destruct (soft_delete e).
      * rewrite lookup_singleton. destruct (decide ("isDeleted" = k)) as [<-|Hk'].
        -- split; [intros [= <-]; right; auto |].
           intros [(_ & Hk' & _) | (_ & _ & ->)]; [congruence | reflexivity].
        -- split; [discriminate|].
           intros [(_ & Hk'' & _) | (_ & Hk'' & _)]; congruence.
      * rewrite lookup_empty. split; [discriminate|].
        intros [(_ & Hk' & _) | (Hs & _)]; congruence.
  - assert (Hs : s = "").
    { destruct (String.eqb_spec s ""); [assumption|].
      apply truthy_search in n. congruence. }
    destruct (soft_delete e).
    + rewrite lookup_singleton. destruct (decide ("isDeleted" = k)) as [<-|Hk'].
      * split; [intros [= <-]; right; auto |].
        intros [(Hn & _) | (_ & _ & ->)]; [contradiction | reflexivity].
      * split; [discriminate|].
        intros [(Hn & _) | (_ & Hk'' & _)]; [contradiction | congruence].
    + rewrite lookup_empty. split; [discriminate|].
      intros [(Hn & _) | (Hsd & _)]; [contradiction | discriminate].
Qed.

Lemma holds_Equals `{Collaborators} x v : holds (Equals x) v <-> v = x.
Proof.
  unfold holds. simpl. split.
  - intros (test & [= <-] & Ht). apply bool_decide_eq_true in Ht. exact Ht.
  - intros ->. eexists. split; [reflexivity|]. apply bool_decide_eq_true. reflexivity.
Qed.

Lemma holds_Regex_ordinary `{Collaborators} s v :
  ordinary s ->
  holds (Regex s "i") v <-> exists t, v = JStr t /\ contains_ci s t.
Proof.
  intros Hs. unfold holds. simpl. rewrite (regex_compile_ordinary s Hs). simpl. split.
  - intros (test & [= <-] & Ht). destruct v; try discriminate.
    eexists. split; [reflexivity|]. apply search_is_contains_ci. exact Ht.
  - intros (t & -> & Ht). eexists. split; [reflexivity|].
    apply search_is_contains_ci. exact Ht.
Qed.

(** The query of a list operation, for a term of ordinary characters, is
    accepted by the store and selects the records the specification
    includes. *)
Lemma list_query_selects `{Collaborators} e s :
  ordinary s ->
  exists p, query_compile (list_query e s) = Ok p /\
            forall d, p d = true <-> included e s d.
Proof.
  intros Hs.
  destruct (query_compile_is_Ok (list_query e s)) as [p Hp].
  { intros k c Hk. apply list_query_lookup in Hk as [(_ & _ & ->) | (_ & _ & ->)].
    - simpl. rewrite (regex_compile_ordinary s Hs). eexists; reflexivity.
    - eexists; reflexivity. }
  exists p. split; [exact Hp|]. intros d.
  rewrite (query_compile_Ok _ _ Hp d). unfold included. split.
  - intros Hall. split.
    + intros Hne. apply (holds_Regex_ordinary s _ Hs).
      apply Hall. apply list_query_lookup. left. auto.
    + intros Hsoft. apply holds_Equals.
      apply Hall. apply list_query_lookup. right. auto.
  - intros [Hterm Hsoft] k c Hk.
    apply list_query_lookup in Hk as [(Hne & -> & ->) | (Hsd & -> & ->)].
    + apply (holds_Regex_ordinary s _ Hs). apply Hterm. exact Hne.
    + apply holds_Equals. apply Hsoft. exact Hsd.
Qed.

Lemma page_window_first_page {A} (pg : IPagination) (l : list A) :
  page pg = 1%Z -> (Z.of_nat (length l) <= limit pg)%Z ->
  page_window pg l = l.
Proof.
  intros Hp Hl. unfold page_window. rewrite Hp. simpl.
  apply take_ge. lia.
Qed.

Lemma page_window_subset {A} (pg : IPagination) (l : list A) x :
  x ∈ page_window pg l -> x ∈ l.
Proof.
  unfold page_window. intros Hx.
  apply elem_of_take in Hx as (i & Hx & _).
  rewrite lookup_drop in Hx. eapply list_elem_of_lookup_2. exact Hx.
Qed.

Lemma ordinary_terms :
  Forall (fun t => ordinary t /\ t <> "" /\ contains_ci t "Acme Corp")
         ["acme"; "ACME"; "me co"].
Proof.
  repeat constructor; try discriminate;
    try (apply search_is_contains_ci; vm_compute; reflexivity).
Qed.

(** C4, as the code has it.  The search term is handed to the store as a
    regular expression.  For a term made of ordinary characters only (no
    metacharacter of the pattern language), every list operation includes a
    record exactly when its text field (name; file for Timesheet) contains
    the term as a case-insensitive substring, so that "Acme Corp" matches
    "acme", "ACME" and "me co"; without a term every record is included; in
    both cases Customer and ActivityManager keep to the records that are not
    deleted.  The included records are the ones counted, the ones returned
    are among them, and the first page returns them all when the limit
    allows. *)
Theorem search_on_ordinary_terms `{Collaborators}
    (e : Entity) (req : Request) (pg : IPagination) (s : string) (w : World) :
  ordinary s ->
  faults w = [] ->
  (0 < page pg)%Z -> (0 < limit pg)%Z ->
  exists p r,
    (forall d, p d = true <-> included e s d) /\
    repo_list e req pg s w = (Ok r, w) /\
    let matching := List.filter p (collection (model_of e) (db w)) in
    totalCount r = Z.of_nat (length matching) /\
    (forall x, x ∈ data r -> x ∈ map (presented e) matching) /\
    (page pg = 1%Z -> (Z.of_nat (length matching) <= limit pg)%Z ->
     data r = map (presented e) matching) /\
    Forall (fun t => ordinary t /\ t <> "" /\ contains_ci t "Acme Corp")
           ["acme"; "ACME"; "me co"].
Proof.
  intros Hs Hquiet Hp Hl.
  destruct (list_query_selects e s Hs) as (p & Hq & Hsel).
  exists p.
  assert (e = Timesheet \/ e <> Timesheet) as [->|Hne]
    by (destruct e; (left; reflexivity) || (right; discriminate)).
  - eexists. split; [exact Hsel|].
    split; [apply (timesheet_list_runs req pg s w p Hquiet Hq)|].
    cbn zeta. cbn [totalCount data model_of collection].
    split; [reflexivity|]. split; [auto|]. split; [reflexivity | apply ordinary_terms].
  - eexists. split; [exact Hsel|].
    split; [apply (paged_list_runs e req pg s w p Hne Hquiet Hp Hl Hq)|].
    cbn zeta. cbn [totalCount data].
    split; [reflexivity|]. split; [|split].
    + intros x Hx. apply list_elem_of_fmap in Hx as (y & -> & Hy).
      apply list_elem_of_fmap. exists y. split; [reflexivity|].
      eapply page_window_subset. exact Hy.
    + intros Hp1 Hlim. rewrite page_window_first_page by assumption. reflexivity.
    + apply ordinary_terms.
Qed.

(** ** The Timesheet list *)

Lemma list_query_no_term `{Collaborators} e :
  soft_delete e = false ->
  query_compile (list_query e "") = Ok (fun _ => true).
Proof.
  intros Hhard. unfold list_query, query_compile. rewrite Hhard. simpl.
  rewrite map_to_list_empty. reflexivity.
Qed.

Lemma filter_all {A} (l : list A) : List.filter (fun _ => true) l = l.
Proof. induction l as [|x l IH]; simpl; [reflexivity | rewrite IH; reflexivity]. Qed.

(** C2, at the input where the code departs from it.  One timesheet is
    stored; page 2 with limit 1 lies past the only page, and the list
    operation still returns the timesheet. *)
Theorem timesheets_returned_past_the_last_page `{Collaborators}
    (req : Request) (t : gmap string jsval) (entries : list LogEntry) :
  let w := {| db := set_collection TimesheetModel [t] empty_db;
              faults := []; errorLog := entries |} in
  exists r,
    TimesheetRepository.getTimesheets req {| page := 2; limit := 1 |} "" w = (Ok r, w) /\
    totalCount r = 1%Z /\ totalPages r = Num 1 /\ currentPage r = 2%Z /\
    data r = [presented Timesheet t].
Proof.
  intros w.
  pose proof (timesheet_list_runs req {| page := 2; limit := 1 |} "" w (fun _ => true)
                eq_refl (list_query_no_term Timesheet eq_refl)) as Hrun.
  cbv zeta in Hrun. rewrite filter_all in Hrun.
  eexists. split; [exact Hrun|]. repeat split.
Qed.

(** C3, at the input where the code departs from it.  Three timesheets are
    stored; page 2 with limit 1 is the window holding the second one alone,
    and the list operation returns all three, from the first on. *)
Theorem timesheets_returned_outside_the_window `{Collaborators}
    (req : Request) (t1 t2 t3 : gmap string jsval) (entries : list LogEntry) :
  let w := {| db := set_collection TimesheetModel [t1; t2; t3] empty_db;
              faults := []; errorLog := entries |} in
  let pg := {| page := 2; limit := 1 |} in
  exists r,
    TimesheetRepository.getTimesheets req pg "" w = (Ok r, w) /\
    page_window pg [t1; t2; t3] = [t2] /\
    data r = [presented Timesheet t1; presented Timesheet t2; presented Timesheet t3] /\
    totalPages r = Num 3.
Proof.
  intros w pg.
  pose proof (timesheet_list_runs req pg "" w (fun _ => true)
                eq_refl (list_query_no_term Timesheet eq_refl)) as Hrun.
  cbv zeta in Hrun. rewrite filter_all in Hrun.
  eexists. split; [exact Hrun|]. repeat split.
Qed.

(** ** Search terms that are patterns *)

(** C4 fails as stated: the term "." is not empty and is no substring of
    "Acme Corp", and the Customer list run with it returns the record whose
    name is "Acme Corp". *)
Lemma search_term_is_a_pattern :
  exists r,
    repo_list (H := demo_collaborators) Customer (request "" None)
      {| page := 1; limit := 10 |} "." acme_world = (Ok r, acme_world) /\
    acme ∈ data r /\
    prop acme (search_field Customer) = JStr "Acme Corp" /\
    "."%string <> ""%string /\
    ~ contains_ci "." "Acme Corp".
Proof.
  exists {| data := [acme]; totalCount := 1; currentPage := 1; totalPages := Num 1 |}.
  split; [vm_compute; reflexivity|].
  split; [left|]. split; [vm_compute; reflexivity|]. split; [discriminate|].
  intros Hc. apply (search_is_contains_ci "." "Acme Corp") in Hc.
  vm_compute in Hc. discriminate Hc.
Qed.

(** ** Middlewares *)

Lemma prop_absent (body : gmap string jsval) k :
  body !! k = None -> truthy (prop body k) = false.
Proof. intros Hk. unfold prop. rewrite Hk. reflexivity. Qed.

Lemma prop_empty_string (body : gmap string jsval) k :
  body !! k = Some (JStr "") -> truthy (prop body k) = false.
Proof. intros Hk. unfold prop. rewrite Hk. reflexivity. Qed.

Lemma prop_deleted (body : gmap string jsval) k :
  truthy (prop (delete k body) k) = false.
Proof. unfold prop. rewrite lookup_delete_eq. reflexivity. Qed.

Lemma prop_delete_other (body : gmap string jsval) k k' :
  k <> k' -> prop (delete k body) k' = prop body k'.
Proof. intros Hk. unfold prop. rewrite lookup_delete_ne by exact Hk. reflexivity. Qed.

(** C5. For Customer, ServiceCompany and Timesheet, an update request whose
    body holds none of the entity's updatable fields is answered by the
    middleware with status 400; the service is not reached, and the world
    (database, pending storage calls, log) is as before. *)
Theorem update_without_fields_is_rejected `{Collaborators}
    (s : Slice) (req : Request) (body : gmap string jsval) (w : World) :
  req_body req = Some body ->
  (forall k, k ∈ updatable_fields s -> body !! k = None) ->
  exists r,
    update_middleware s req w = (Ok (Respond r), w) /\
    router s PATCH_id req w = (Ok r, w) /\
    is_success r = false /\
    http_status r = Some 400%Z.
Proof.
  intros Hbody Hnone.
  assert (Hfalse : forall k, k ∈ updatable_fields s -> truthy (prop body k) = false).
  { intros k Hk. apply prop_absent. apply Hnone. exact Hk. }
  destruct s; eexists;
    cbn [update_middleware router serviceCompanyRoute timesheetroute customerRoute chain];
    unfold ServiceCompanyMiddleware.updateServiceCompany,
      TimesheetMiddleware.updateTimesheet, CustomerMiddleware.updateCustomer,
      try_catch, bind, destructure_body;
    rewrite Hbody; cbn [ret];
    rewrite !Hfalse by (cbn [updatable_fields]; set_solver);
    repeat split.
Qed.

(** C10. For Customer, ServiceCompany and Timesheet, a create request in
    which a required field holds the empty string is answered with status
    400, by the very response given when that field is missing; the service
    is not reached. *)
Theorem empty_string_counts_as_missing `{Collaborators}
    (s : Slice) (req : Request) (body : gmap string jsval) (k : string) (w : World) :
  req_body req = Some body ->
  k ∈ required_fields s ->
  body !! k = Some (JStr "") ->
  exists r,
    create_middleware s req w = (Ok (Respond r), w) /\
    create_middleware s (with_body req (delete k body)) w = (Ok (Respond r), w) /\
    router s POST req w = (Ok r, w) /\
    http_status r = Some 400%Z.
Proof.
  intros Hbody Hk Hempty.
  pose proof (prop_empty_string body k Hempty) as Hfalse.
  pose proof (prop_deleted body k) as Hgone.
  destruct s; cbn [required_fields] in Hk;
    repeat (apply elem_of_cons in Hk as [->|Hk]); try (apply elem_of_nil in Hk; contradiction);
    eexists;
    cbn [create_middleware router serviceCompanyRoute timesheetroute customerRoute chain];
    unfold ServiceCompanyMiddleware.createServiceCompany,
      TimesheetMiddleware.createTimesheet, CustomerMiddleware.createCustomer,
      try_catch, bind, destructure_body, with_body;
    cbn [req_body]; rewrite Hbody; cbn [ret];
    rewrite Hfalse, Hgone; cbn [negb orb];
    rewrite ?orb_true_r; cbn [negb orb];
    repeat split.
Qed.

(** ** Services *)

Ltac run_service :=
  unfold try_catch, bind, logError, ret;
  match goal with
  | |- context [match ?call with (_, _) => _ end] =>
      lazymatch call with
      | context [match _ with (_, _) => _ end] => fail
      | _ => destruct call as [[?|?] ?]
      end
  end;
  eexists _, _; (split; [reflexivity|]); cbn [is_success http_status fst];
  (split; [split; intros; first [reflexivity | discriminate]
          | intros; first [reflexivity | discriminate]]).

(** C8. A service always answers.  Its answer is a success envelope exactly
    when the repository method it calls returns, and the status of a success
    envelope is 201 for create and 200, the default, for list, get, update
    and delete. *)
Theorem service_success_status `{Collaborators}
    (s : Slice) (v : Verb) (req : Request) (w : World) :
  exists r w',
    service s v req w = (Ok r, w') /\
    (is_success r = true <-> fst (service_call s v req w) = Ok tt) /\
    (is_success r = true ->
     http_status r = Some (match v with POST => 201 | _ => 200 end)%Z).
Proof.
  unfold service_call, repo_run.
  destruct s, v;
    cbn [service entity_of operation_of repo_list repo_getById repo_create
         repo_update repo_delete fst snd].
  all: unfold ServiceCompanyService.getServiceCompanies,
    ServiceCompanyService.getServiceCompany, ServiceCompanyService.createServiceCompany,
    ServiceCompanyService.updateServiceCompany, ServiceCompanyService.deleteServiceCompany,
    TimesheetService.getTimesheets, TimesheetService.getTimesheet,
    TimesheetService.createTimesheet, TimesheetService.updateTimesheet,
    TimesheetService.deleteTimesheet, CustomerService.getCustomers,
    CustomerService.getCustomer, CustomerService.createCustomer,
    CustomerService.updateCustomer, CustomerService.deleteCustomer.
  all: run_service.
Qed.

(** A success envelope is what a service answers when the repository
    returns. *)
Example customer_create_then_get :
  exists r1 w1 r2 w2,
    router (H := demo_collaborators) CustomerSlice POST
      (request "" (Some {[ "email" := JStr "a@b.com"; "name" := JStr "A";
                           "password" := JStr "x" ]})) acme_world = (Ok r1, w1) /\
    http_status r1 = Some 201%Z /\
    router (H := demo_collaborators) CustomerSlice GET_id (request "c1" None) w1
      = (Ok r2, w2) /\
    r2 = SendFormatted acme "Customer retrieved successfully" None /\
    http_status r2 = Some 200%Z.
Proof.
  eexists _, _, _, _. split; [vm_compute; reflexivity|].
  split; [reflexivity|]. split; [vm_compute; reflexivity|].
  split; [vm_compute; reflexivity | reflexivity].
Qed.

(** ** Logging in the repositories *)

Lemma string_length_append (a b : string) :
  String.length (a ++ b)%string = String.length a + String.length b.
Proof. induction a as [|c a IH]; simpl; [reflexivity | rewrite IH; reflexivity]. Qed.

(** C6, at the input where the code departs from it.  The next storage call
    fails with [err] while ActivityManagerRepository.getActivityManagers
    runs: the error is thrown again as it is, and the log entry carries the
    label "ManagerRepository-getManagers", which is not the class name
    followed by the method name, nor any entity name followed by
    "Repository-" and the method name. *)
Theorem manager_list_failure_label `{Collaborators}
    (req : Request) (pg : IPagination) (search : string)
    (d : Database) (err : JsError) (fs : list (option JsError))
    (entries : list LogEntry) :
  let w := {| db := d; faults := Some err :: fs; errorLog := entries |} in
  ActivityManagerRepository.getActivityManagers req pg search w =
    (Throw err,
     {| db := d; faults := fs;
        errorLog := entries ++ [{| log_error := err; log_req := req;
                                   log_label := "ManagerRepository-getManagers" |}] |}) /\
  "ManagerRepository-getManagers" <>
    (repository_class ActivityManager ++ "-" ++ method_name ActivityManager ListOp)%string /\
  forall entity : string,
    "ManagerRepository-getManagers" <>
      (entity ++ "Repository-" ++ method_name ActivityManager ListOp)%string.
Proof.
  intros w. split; [|split; [discriminate|]].
  - unfold ActivityManagerRepository.getActivityManagers, try_catch, bind, countDocuments.
    rewrite (storage_fault _ _ w err fs eq_refl). reflexivity.
  - intros entity Heq. apply (f_equal String.length) in Heq.
    rewrite string_length_append in Heq. simpl in Heq. lia.
Qed.

Create HintDb neutral.

Lemma ret_neutral {A} (a : A) : log_neutral (ret a).
Proof. intros w. reflexivity. Qed.

Lemma throw_neutral {A} e : log_neutral (@throw A e).
Proof. intros w. reflexivity. Qed.

Lemma bind_neutral {A B} (m : M A) (k : A -> M B) :
  log_neutral m -> (forall a, log_neutral (k a)) -> log_neutral (bind m k).
Proof.
  intros Hm Hk w. unfold bind. specialize (Hm w).
  destruct (m w) as [[a|e] w1]; simpl in *; [|exact Hm].
  rewrite (Hk a w1). exact Hm.
Qed.

Lemma storage_neutral {A} m
    (op : list (gmap string jsval) -> result A * option (list (gmap string jsval))) :
  log_neutral (storage m op).
Proof.
  intros w. unfold storage. destruct (faults w) as [|[e|] fs]; simpl;
    try reflexivity; destruct (op (collection m (db w))); reflexivity.
Qed.

Lemma populate_neutral `{Collaborators} path select (q : M (option (gmap string jsval))) :
  log_neutral q -> log_neutral (populate path select q).
Proof.
  intros Hq. simpl. apply bind_neutral; [exact Hq|]. intros a. apply ret_neutral.
Qed.

Lemma option_throw_neutral {A B} (o : option A) e (k : A -> M B) :
  (forall a, log_neutral (k a)) ->
  log_neutral (match o with None => throw e | Some a => k a end).
Proof. intros Hk. destruct o; [apply Hk | apply throw_neutral]. Qed.

#[local] Hint Resolve ret_neutral throw_neutral storage_neutral : neutral.
#[local] Hint Extern 2 (log_neutral (bind _ _)) => apply bind_neutral; [|intros ?] : neutral.
#[local] Hint Extern 2 (log_neutral (populate _ _ _)) => apply populate_neutral : neutral.
#[local] Hint Extern 2 (log_neutral (lean _)) => unfold lean; simpl : neutral.
#[local] Hint Extern 2 (log_neutral (match _ with None => _ | Some _ => _ end)) =>
  apply option_throw_neutral; intros ? : neutral.
#[local] Hint Extern 3 (log_neutral _) =>
  progress unfold exec, countDocuments, findById, findOne, findOneAndUpdate,
    findByIdAndUpdate, findByIdAndDelete, create : neutral.

(** [try { body } catch (error) { await logError(error, req, label); throw error }]
    around a body that does not log: nothing is logged when the body returns;
    when it throws, one entry is logged, with the error thrown, and that error
    is the outcome. *)
Lemma catch_logs {A} (body : M A) req label w :
  log_neutral body ->
  let run := try_catch body (fun error => logError error req label;; throw error) w in
  fst run = fst (body w) /\
  errorLog (snd run) =
    match fst run with
    | Ok _ => errorLog w
    | Throw err =>
        errorLog w ++ [{| log_error := err; log_req := req; log_label := label |}]
    end.
Proof.
  intros Hb. cbv zeta. unfold try_catch, bind, logError, throw.
  specialize (Hb w). destruct (body w) as [[a|e] w1]; simpl in *.
  - split; [reflexivity | exact Hb].
  - split; [reflexivity | rewrite Hb; reflexivity].
Qed.

Lemma method_logs {A} (body : M A) req label w :
  log_neutral body ->
  let run := try_catch body (fun error => logError error req label;; throw error) w in
  errorLog (snd run) =
    match match fst run with Ok _ => Ok tt | Throw err => Throw err end with
    | Ok _ => errorLog w
    | Throw err =>
        errorLog w ++ [{| log_error := err; log_req := req; log_label := label |}]
    end.
Proof.
  intros Hb. destruct (catch_logs body req label w Hb) as [_ Hlog].
  cbv zeta in *. rewrite Hlog.
  destruct (fst (try_catch body _ w)); reflexivity.
Qed.

(** Every repository method logs its failures, once and under its label,
    and throws the error it caught. *)
Lemma repositories_log_and_rethrow `{Collaborators}
    (e : Entity) (o : Operation) (req : Request) (pg : IPagination)
    (search id : string) (fields : gmap string jsval) (w : World) :
  let run := repo_run e o req pg search id fields w in
  errorLog (snd run) =
    match fst run with
    | Ok _ => errorLog w
    | Throw err =>
        errorLog w ++ [{| log_error := err; log_req := req;
                          log_label := logged_label e o |}]
    end.
Proof.
  cbv zeta. unfold repo_run.
  destruct e, o; cbn [repo_list repo_getById repo_create repo_update repo_delete
                      logged_label repository_class method_name fst snd].
  all: apply method_logs.
  all: auto 20 with neutral.
Qed.

(** ** The properties on concrete inputs *)

Example values_and_patterns :
  prop acme "email" = JStr "a@b.com" /\ prop acme "password" = JUndefined /\
  fragment_test true "me co" "Acme Corp" = Some true /\
  fragment_test false "me co" "Acme Corp" = Some false /\
  fragment_test true "a*" "Acme Corp" = None /\
  Math_ceil_div 7 3 = Num 3 /\ Math_ceil_div 6 3 = Num 2 /\
  Math_ceil_div 0 5 = Num 0 /\ Math_ceil_div 4 0 = PosInfinity.
Proof. repeat split; vm_compute; reflexivity. Qed.

Lemma single_resolves (d : gmap string jsval) (id : string) :
  doc_id d = JStr id -> resolves [d] id [] d [].
Proof.
  intros Hid. split; [reflexivity|]. split; [exact Hid|].
  unfold ids_unique. simpl. apply NoDup_singleton.
Defined.

Lemma soft_delete_then_getById_not_found_witness :
  soft_delete Customer = true /\
  faults acme_world = [] /\
  resolves (collection (model_of Customer) (db acme_world)) "c1" [] acme [] /\
  prop acme "isDeleted" = JBool false /\
  exists deleted w1 w2,
    repo_delete (H := demo_collaborators) Customer (request "c1" None) "c1" acme_world
      = (Ok deleted, w1) /\
    repo_getById (H := demo_collaborators) Customer (request "c1" None) "c1" w1
      = (Throw (not_found Customer), w2) /\
    collection (model_of Customer) (db w1) = [] ++ <["isDeleted" := JBool true]> acme :: [] /\
    deleted = presented (H := demo_collaborators) Customer (<["isDeleted" := JBool true]> acme) /\
    db w2 = db w1.
Proof.
  assert (Hr : resolves (collection (model_of Customer) (db acme_world)) "c1" [] acme [])
    by (apply single_resolves; vm_compute; reflexivity).
  assert (Hlive : prop acme "isDeleted" = JBool false) by (vm_compute; reflexivity).
  split; [reflexivity|]. split; [reflexivity|]. split; [exact Hr|]. split; [exact Hlive|].
  apply (soft_delete_then_getById_not_found (H := demo_collaborators) Customer
           (request "c1" None) (request "c1" None) "c1" acme_world [] acme []);
    [reflexivity | reflexivity | exact Hr | exact Hlive].
Defined.

Lemma soft_deleted_record_is_frozen_witness :
  soft_delete Customer = true /\
  resolves (collection (model_of Customer) (db acme_deleted_world)) "c1" [] acme_deleted [] /\
  prop acme_deleted "isDeleted" = JBool true /\
  (exists err w',
     repo_update (H := demo_collaborators) Customer (request "c1" None) "c1"
       {[ "isDeleted" := JBool false ]} acme_deleted_world = (Throw err, w') /\
     db w' = db acme_deleted_world) /\
  (exists err w',
     repo_delete (H := demo_collaborators) Customer (request "c1" None) "c1"
       acme_deleted_world = (Throw err, w') /\
     db w' = db acme_deleted_world).
Proof.
  assert (Hr : resolves (collection (model_of Customer) (db acme_deleted_world)) "c1"
                 [] acme_deleted [])
    by (apply single_resolves; vm_compute; reflexivity).
  assert (Hdel : prop acme_deleted "isDeleted" = JBool true) by (vm_compute; reflexivity).
  split; [reflexivity|]. split; [exact Hr|]. split; [exact Hdel|].
  apply (soft_deleted_record_is_frozen (H := demo_collaborators) Customer
           (request "c1" None) "c1" acme_deleted_world [] acme_deleted []
           {[ "isDeleted" := JBool false ]});
    [reflexivity | exact Hr | exact Hdel].
Defined.

Lemma delete_removes_or_flags_witness :
  faults depot_world = [] /\
  resolves (collection (model_of ServiceCompany) (db depot_world)) "s1" [] depot [] /\
  (soft_delete ServiceCompany = true -> prop depot "isDeleted" = JBool false) /\
  exists deleted w1,
    repo_delete (H := demo_collaborators) ServiceCompany (request "s1" None) "s1"
      depot_world = (Ok deleted, w1) /\
    if soft_delete ServiceCompany then
      collection (model_of ServiceCompany) (db w1)
        = [] ++ <["isDeleted" := JBool true]> depot :: [] /\
      length (collection (model_of ServiceCompany) (db w1))
        = length (collection (model_of ServiceCompany) (db depot_world))
    else
      collection (model_of ServiceCompany) (db w1) = [] ++ [] /\
      (forall x, x ∈ collection (model_of ServiceCompany) (db w1) -> doc_id x <> JStr "s1") /\
      exists w2,
        repo_getById (H := demo_collaborators) ServiceCompany (request "s1" None) "s1" w1
          = (Throw (not_found ServiceCompany), w2).
Proof.
  assert (Hr : resolves (collection (model_of ServiceCompany) (db depot_world)) "s1"
                 [] depot [])
    by (apply single_resolves; vm_compute; reflexivity).
  assert (Hlive : soft_delete ServiceCompany = true -> prop depot "isDeleted" = JBool false)
    by (simpl; discriminate).
  split; [reflexivity|]. split; [exact Hr|]. split; [exact Hlive|].
  apply (delete_removes_or_flags (H := demo_collaborators) ServiceCompany
           (request "s1" None) (request "s1" None) "s1" depot_world [] depot []);
    [reflexivity | exact Hr | exact Hlive].
Defined.

Lemma ordinary_acme : ordinary "acme".
Proof. unfold ordinary. simpl. repeat constructor. Defined.

Lemma search_on_ordinary_terms_witness :
  ordinary "acme" /\
  faults acme_world = [] /\
  (0 < page {| page := 1; limit := 10 |})%Z /\
  (0 < limit {| page := 1; limit := 10 |})%Z /\
  exists p r,
    (forall d, p d = true <-> included Customer "acme" d) /\
    repo_list (H := demo_collaborators) Customer (request "" None)
      {| page := 1; limit := 10 |} "acme" acme_world = (Ok r, acme_world) /\
    let matching := List.filter p (collection (model_of Customer) (db acme_world)) in
    totalCount r = Z.of_nat (length matching) /\
    (forall x, x ∈ data r -> x ∈ map (presented (H := demo_collaborators) Customer) matching) /\
    (page {| page := 1; limit := 10 |} = 1%Z ->
     (Z.of_nat (length matching) <= limit {| page := 1; limit := 10 |})%Z ->
     data r = map (presented (H := demo_collaborators) Customer) matching) /\
    Forall (fun t => ordinary t /\ t <> "" /\ contains_ci t "Acme Corp")
           ["acme"; "ACME"; "me co"].
Proof.
  split; [exact ordinary_acme|]. split; [reflexivity|].
  split; [simpl; lia|]. split; [simpl; lia|].
  apply (search_on_ordinary_terms (H := demo_collaborators) Customer (request "" None)
           {| page := 1; limit := 10 |} "acme" acme_world);
    [exact ordinary_acme | reflexivity | simpl; lia | simpl; lia].
Defined.

Lemma update_without_fields_is_rejected_witness :
  req_body (request "c1" (Some {[ "note" := JStr "hello" ]}))
    = Some {[ "note" := JStr "hello" ]} /\
  (forall k, k ∈ updatable_fields CustomerSlice ->
             ({[ "note" := JStr "hello" ]} : gmap string jsval) !! k = None) /\
  exists r,
    update_middleware CustomerSlice (request "c1" (Some {[ "note" := JStr "hello" ]}))
      acme_world = (Ok (Respond r), acme_world) /\
    router (H := demo_collaborators) CustomerSlice PATCH_id
      (request "c1" (Some {[ "note" := JStr "hello" ]})) acme_world = (Ok r, acme_world) /\
    is_success r = false /\
    http_status r = Some 400%Z.
Proof.
  assert (Hnone : forall k, k ∈ updatable_fields CustomerSlice ->
             ({[ "note" := JStr "hello" ]} : gmap string jsval) !! k = None).
  { intros k Hk. simpl in Hk.
    repeat (apply elem_of_cons in Hk as [->|Hk]); try reflexivity.
    apply elem_of_nil in Hk. contradiction. }
  split; [reflexivity|]. split; [exact Hnone|].
  apply (update_without_fields_is_rejected (H := demo_collaborators) CustomerSlice
           (request "c1" (Some {[ "note" := JStr "hello" ]}))
           {[ "note" := JStr "hello" ]} acme_world);
    [reflexivity | exact Hnone].
Defined.

Lemma empty_string_counts_as_missing_witness :
  req_body (request "" (Some blank_email_body)) = Some blank_email_body /\
  "email" ∈ required_fields CustomerSlice /\
  blank_email_body !! "email" = Some (JStr "") /\
  exists r,
    create_middleware CustomerSlice (request "" (Some blank_email_body)) acme_world
      = (Ok (Respond r), acme_world) /\
    create_middleware CustomerSlice
      (with_body (request "" (Some blank_email_body)) (delete "email" blank_email_body))
      acme_world = (Ok (Respond r), acme_world) /\
    router (H := demo_collaborators) CustomerSlice POST
      (request "" (Some blank_email_body)) acme_world = (Ok r, acme_world) /\
    http_status r = Some 400%Z.
Proof.
  assert (Hk : "email" ∈ required_fields CustomerSlice) by (simpl; left).
  assert (Hempty : blank_email_body !! "email" = Some (JStr ""))
    by (vm_compute; reflexivity).
  split; [reflexivity|]. split; [exact Hk|]. split; [exact Hempty|].
  apply (empty_string_counts_as_missing (H := demo_collaborators) CustomerSlice
           (request "" (Some blank_email_body)) blank_email_body "email" acme_world);
    [reflexivity | exact Hk | exact Hempty].
Defined.
